(** * vcenter-mcp: configuration resolution, API client, query layer, formatter

    A shallow embedding of
      - main/config/config_manager.py   (ConfigManager)
      - main/models/vcenter_config.py   (the dataclasses)
      - main/services/vcenter_service.py (VCenterService)
      - main/controllers/vcenter_controller.py (VCenterController)
      - main/views/mcp_tools.py         (the cluster listing tool and formatter)

    Python values that come out of [json.loads] / [response.json()] are
    modelled by the type [value]; exceptions by an [outcome] monad; the
    remote REST API by a function answering each request from the history
    of requests issued so far; the process environment by a finite map. *)

From Stdlib Require Import ZArith Ascii String List Lia.
From Stdlib Require Import Decimal DecimalString DecimalNat.
From stdpp Require Import base option gmap strings.

Local Open Scope string_scope.
Local Open Scope Z_scope.

(** ** Characters and strings

    A Python [str] is a sequence of code points.  Here a string is a
    [string] whose characters are the code points U+0000..U+00FF. *)

Definition code (c : ascii) : nat := nat_of_ascii c.

Definition between (lo hi n : nat) : bool := (lo <=? n)%nat && (n <=? hi)%nat.

(** [str.lower()] on one code point below 256: A-Z and the Latin-1 capitals
    (U+00C0..U+00DE except the multiplication sign U+00D7) move up by 32. *)
Definition lower_char (c : ascii) : ascii :=
  let n := code c in
  if between 65 90 n || between 192 214 n || between 216 222 n
  then ascii_of_nat (n + 32) else c.

Fixpoint lower (s : string) : string :=
  match s with
  | EmptyString => EmptyString
  | String c s' => String (lower_char c) (lower s')
  end.

(** [kw in s] for strings: [kw] occurs in [s] as a contiguous substring. *)
Fixpoint contains (kw s : string) : bool :=
  String.prefix kw s ||
  match s with
  | EmptyString => false
  | String _ s' => contains kw s'
  end.

(** [s.rstrip('/')]: every trailing slash is removed. *)
Fixpoint rstrip_slash (s : string) : string :=
  match s with
  | EmptyString => EmptyString
  | String c s' =>
      match rstrip_slash s' with
      | EmptyString => if Ascii.eqb c "/" then EmptyString else String c EmptyString
      | r => String c r
      end
  end.

(** ** Python values produced by the JSON decoder *)

#[local] Set Warnings "-register-all".

Inductive value : Type :=
  | VNone                                   (* null / None *)
  | VBool (b : bool)
  | VInt (z : Z)
  | VFloat (m e : Z)                        (* the finite float m * 2^e *)
  | VStr (s : string)
  | VList (l : list value)
  | VDict (d : list (string * value)).      (* insertion order, keys distinct *)

(** Exceptions: the class that matters to an [except] clause, and the text. *)
Inductive exn_class : Type :=
  | AttributeError | TypeError | ValueError | JSONDecodeError | PlainException.

Record exn : Type := Exn { exn_cls : exn_class; exn_msg : string }.

Inductive outcome (A : Type) : Type :=
  | Ok (a : A)
  | Raise (e : exn).
Arguments Ok {A} a.
Arguments Raise {A} e.

Definition obind {A B} (m : outcome A) (k : A -> outcome B) : outcome B :=
  match m with
  | Ok a => k a
  | Raise e => Raise e
  end.

(** [try: m  except Exception: h] *)
Definition otry {A} (m : outcome A) (h : exn -> outcome A) : outcome A :=
  match m with
  | Ok a => Ok a
  | Raise e => h e
  end.

#[global] Instance outcome_ret : MRet outcome := fun A a => Ok a.
#[global] Instance outcome_bind : MBind outcome := fun A B k m => obind m k.

(** Truthiness ([bool(v)], as used by [if v:] and [all([...])]). *)
Definition truthy (v : value) : bool :=
  match v with
  | VNone => false
  | VBool b => b
  | VInt z => negb (z =? 0)
  | VFloat m _ => negb (m =? 0)
  | VStr s => negb (String.eqb s "")
  | VList l => match l with nil => false | _ => true end
  | VDict d => match d with nil => false | _ => true end
  end.

Definition type_name (v : value) : string :=
  match v with
  | VNone => "NoneType" | VBool _ => "bool" | VInt _ => "int"
  | VFloat _ _ => "float" | VStr _ => "str" | VList _ => "list"
  | VDict _ => "dict"
  end.

Definition no_attribute (v : value) (attr : string) : exn :=
  Exn AttributeError
      ("'" +:+ type_name v +:+ "' object has no attribute '" +:+ attr +:+ "'").

Fixpoint dict_lookup (d : list (string * value)) (k : string) : option value :=
  match d with
  | nil => None
  | (k', v) :: d' => if String.eqb k' k then Some v else dict_lookup d' k
  end.

(** [v.get(k, dflt)] *)
Definition py_get (v : value) (k : string) (dflt : value) : outcome value :=
  match v with
  | VDict d => Ok (default dflt (dict_lookup d k))
  | _ => Raise (no_attribute v "get")
  end.

(** [v.lower()] *)
Definition py_lower (v : value) : outcome string :=
  match v with
  | VStr s => Ok (lower s)
  | _ => Raise (no_attribute v "lower")
  end.

(** [v.rstrip('/')] *)
Definition py_rstrip_slash (v : value) : outcome string :=
  match v with
  | VStr s => Ok (rstrip_slash s)
  | _ => Raise (no_attribute v "rstrip")
  end.

(** [v.items()] *)
Definition py_items (v : value) : outcome (list (string * value)) :=
  match v with
  | VDict d => Ok d
  | _ => Raise (no_attribute v "items")
  end.

Fixpoint chars (s : string) : list value :=
  match s with
  | EmptyString => nil
  | String c s' => VStr (String c EmptyString) :: chars s'
  end.

(** What a [for] loop over [v] visits: the elements of a list, the keys of
    a dict, the characters of a string; nothing else is iterable. *)
Definition iter_items (v : value) : list value :=
  match v with
  | VList l => l
  | VDict d => map (fun kv => VStr (fst kv)) d
  | VStr s => chars s
  | _ => nil
  end.

Definition iterable (v : value) : bool :=
  match v with
  | VList _ | VDict _ | VStr _ => true
  | _ => false
  end.

Definition py_iter (v : value) : outcome (list value) :=
  if iterable v then Ok (iter_items v)
  else Raise (Exn TypeError ("'" +:+ type_name v +:+ "' object is not iterable")).

(** [len(v)] *)
Definition py_len (v : value) : outcome nat :=
  if iterable v then Ok (length (iter_items v))
  else Raise (Exn TypeError ("object of type '" +:+ type_name v +:+ "' has no len()")).

(** [v == q] for a string [q]: only an equal string is equal to a string. *)
Definition eq_str (v : value) (q : string) : bool :=
  match v with
  | VStr s => String.eqb s q
  | _ => false
  end.

(** ** [int(s)] for a string, base 10

    Leading and trailing white space is dropped, one sign is allowed, then
    decimal digits with single underscores between them.  Below 256 the
    white-space code points are 9-13, 32, U+0085 and U+00A0, and the only
    decimal digits are 0-9.  Literals with more digits than the
    interpreter's limit are refused with ValueError as well. *)

Definition is_space (c : ascii) : bool :=
  let n := code c in
  between 9 13 n || (n =? 32)%nat || (n =? 133)%nat || (n =? 160)%nat.

Definition is_digit (c : ascii) : bool := between 48 57 (code c).

Definition digit_val (c : ascii) : Z := Z.of_nat (code c - 48).

Fixpoint skip_spaces (s : string) : string :=
  match s with
  | String c s' => if is_space c then skip_spaces s' else s
  | EmptyString => s
  end.

(** The digit loop: the value so far, the number of digits seen, and
    whether the previous character was an underscore. *)
Fixpoint scan_digits (s : string) (prev_us : bool) (acc : Z) (cnt : nat)
  : option (Z * nat * string) :=
  match s with
  | String c s' =>
      if is_digit c then scan_digits s' false (acc * 10 + digit_val c) (S cnt)
      else if Ascii.eqb c "_" then
        (if prev_us then None else scan_digits s' true acc cnt)
      else if prev_us then None else Some (acc, cnt, s)
  | EmptyString => if prev_us then None else Some (acc, cnt, s)
  end.

Definition MAX_STR_DIGITS_THRESHOLD : nat := 640.

(** ** The data model (models/vcenter_config.py)

    The dataclasses do not check their field types: a field holds whatever
    value it was given.  [None] defaults are [VNone]. *)

Record VCenterConfig : Type := mkVCenterConfig {
  host : value;
  username : value;
  password : value;
  verify_ssl : bool;
  timeout : Z
}.

Record VCenterCredentials : Type := mkVCenterCredentials {
  cred_host : value;
  cred_username : value;
  cred_password : value
}.

Record Cluster : Type := mkCluster {
  cluster_id : value;
  name : value;
  resource_pools : value
}.

Record ResourcePool : Type := mkResourcePool {
  resource_pool_id : value;
  rp_name : value;
  rp_cluster_id : value
}.

Record VirtualMachine : Type := mkVirtualMachine {
  vm_id : value;
  vm_name : value;
  power_state : value;
  vm_cluster_id : value;
  vm_resource_pool_id : value
}.

(** ** The process environment: [os.getenv] *)

Definition getenv (env : gmap string string) (k : string) : value :=
  match env !! k with
  | Some s => VStr s
  | None => VNone
  end.

Definition getenv_default (env : gmap string string) (k dflt : string) : string :=
  default dflt (env !! k).

Section Interpreter.

(** The interpreter's [sys.get_int_max_str_digits()]; 0 switches the limit
    off, and an interpreter without the limit behaves as with 0. *)
Variable max_str_digits : nat.

Definition over_limit (cnt : nat) : bool :=
  (MAX_STR_DIGITS_THRESHOLD <? cnt)%nat && (0 <? max_str_digits)%nat
  && (max_str_digits <? cnt)%nat.

Definition int_body (s : string) : option Z :=
  match s with
  | String "_" _ => None
  | _ =>
      match scan_digits s false 0 0 with
      | Some (n, cnt, rest) =>
          if (cnt =? 0)%nat then None
          else match skip_spaces rest with
               | EmptyString => if over_limit cnt then None else Some n
               | _ => None
               end
      | None => None
      end
  end.

Definition invalid_literal (s : string) : exn :=
  Exn ValueError "invalid literal for int() with base 10".

Definition py_int (s : string) : outcome Z :=
  let r :=
    match skip_spaces s with
    | String "+" s' => int_body s'
    | String "-" s' => option_map Z.opp (int_body s')
    | s' => int_body s'
    end in
  match r with
  | Some z => Ok z
  | None => Raise (invalid_literal s)
  end.

End Interpreter.

(** ** ConfigManager (config/config_manager.py) *)

Module ConfigManager.
Section Methods.

Variable max_str_digits : nat.

(** [json.loads]: the decoded document, or [None] for a JSONDecodeError. *)
Variable json_loads : string -> option value.

Definition loads (s : string) : outcome value :=
  match json_loads s with
  | Some v => Ok v
  | None => Raise (Exn JSONDecodeError "Expecting value")
  end.

Definition vcenter_keywords : list string := "vcenter" :: "vmware" :: "esxi" :: nil.

Definition _is_vcenter_service (service : value) : outcome bool :=
  n ← py_get service "name" (VStr "");
  service_name ← py_lower n;
  l ← py_get service "label" (VStr "");
  service_label ← py_lower l;
  mret (existsb (fun keyword => contains keyword service_name
                                || contains keyword service_label)
                vcenter_keywords).

Definition _get_credentials_from_env (env : gmap string string)
  : option VCenterCredentials :=
  let host := getenv env "VCENTER_HOST" in
  let username := getenv env "VCENTER_USERNAME" in
  let password := getenv env "VCENTER_PASSWORD" in
  if truthy host && truthy username && truthy password
  then Some (mkVCenterCredentials host username password)
  else None.

(** The inner loop, over the descriptors of one service type. *)
Fixpoint scan_service_list (service_list : list value)
  : outcome (option VCenterCredentials) :=
  match service_list with
  | nil => mret None
  | service :: rest =>
      is_vc ← _is_vcenter_service service;
      if is_vc : bool then
        credentials ← py_get service "credentials" (VDict nil);
        host ← py_get credentials "host" VNone;
        username ← py_get credentials "username" VNone;
        password ← py_get credentials "password" VNone;
        if truthy host && truthy username && truthy password
        then mret (Some (mkVCenterCredentials host username password))
        else scan_service_list rest
      else scan_service_list rest
  end.

(** The outer loop, over [services.items()]. *)
Fixpoint scan_services (items : list (string * value))
  : outcome (option VCenterCredentials) :=
  match items with
  | nil => mret None
  | (service_type, service_list) :: rest =>
      descriptors ← py_iter service_list;
      found ← scan_service_list descriptors;
      match found with
      | Some c => mret (Some c)
      | None => scan_services rest
      end
  end.

Definition _get_credentials_from_service_binding (env : gmap string string)
  : option VCenterCredentials :=
  let vcap_services := getenv env "VCAP_SERVICES" in
  if negb (truthy vcap_services) then None
  else
    match vcap_services with
    | VStr doc =>
        (* both except clauses log a warning and fall through to return None *)
        match (services ← loads doc;
               items ← py_items services;
               scan_services items) with
        | Ok found => found
        | Raise _ => None
        end
    | _ => None
    end.

Definition credentials_not_found : exn :=
  Exn ValueError
    ("vCenter credentials not found in environment variables or service binding. "
     +:+ "Please set VCENTER_HOST, VCENTER_USERNAME, and VCENTER_PASSWORD environment "
     +:+ "variables or bind to a vCenter service in Cloud Foundry.").

Definition get_vcenter_credentials (env : gmap string string)
  : outcome VCenterCredentials :=
  match _get_credentials_from_env env with
  | Some credentials => Ok credentials
  | None =>
      match _get_credentials_from_service_binding env with
      | Some credentials => Ok credentials
      | None => Raise credentials_not_found
      end
  end.

Definition resolve_verify_ssl (env : gmap string string) : bool :=
  let verify_ssl_str := lower (getenv_default env "VCENTER_VERIFY_SSL" "true") in
  negb (String.eqb verify_ssl_str "false").

Definition resolve_timeout (env : gmap string string) : outcome Z :=
  let timeout_str := getenv_default env "VCENTER_TIMEOUT" "30" in
  otry (py_int max_str_digits timeout_str)
       (fun e => match exn_cls e with
                 | ValueError => Ok 30      (* warning logged, default used *)
                 | _ => Raise e
                 end).

Definition get_vcenter_config (env : gmap string string) : outcome VCenterConfig :=
  credentials ← get_vcenter_credentials env;
  let verify_ssl := resolve_verify_ssl env in
  timeout ← resolve_timeout env;
  mret (mkVCenterConfig (cred_host credentials) (cred_username credentials)
                        (cred_password credentials) verify_ssl timeout).

End Methods.
End ConfigManager.

(** ** The remote API and the monad of the client code

    A request is identified by the endpoint handed to [_make_request]; the
    remote answers it from the requests issued before it, so that two calls
    to one endpoint may be answered differently.  [Failure] stands for every
    [RequestException]: a network error, a non-2xx status, a body that is
    not JSON. *)

Inductive response : Type :=
  | Answer (body : value)
  | Failure (reason : string).

Definition M (A : Type) : Type := list string -> outcome A * list string.

#[global] Instance M_ret : MRet M := fun A a log => (Ok a, log).
#[global] Instance M_bind : MBind M := fun A B k m log =>
  match m log with
  | (Ok a, log') => k a log'
  | (Raise e, log') => (Raise e, log')
  end.

Definition lift {A} (o : outcome A) : M A := fun log => (o, log).

(** [try: m  except Exception as e: h e] *)
Definition try_except {A} (m : M A) (h : exn -> M A) : M A := fun log =>
  match m log with
  | (Ok a, log') => (Ok a, log')
  | (Raise e, log') => h e log'
  end.

Definition nl : string := String (ascii_of_nat 10) EmptyString.

Fixpoint join (sep : string) (l : list string) : string :=
  match l with
  | nil => ""
  | x :: nil => x
  | x :: rest => x +:+ sep +:+ join sep rest
  end.

(** ** VCenterService (services/vcenter_service.py) *)

Module VCenterService.

Record t : Type := mk { config : VCenterConfig; host_ : string }.

(** [__init__]: the client keeps the configuration and its own copy of the
    host without trailing slashes. *)
Definition __init__ (config : VCenterConfig) : outcome t :=
  h ← py_rstrip_slash (host config);
  mret (mk config h).

Section Methods.

(** [repr(v)] for a value that is not a string (built in). *)
Variable py_repr : value -> string.
Variable remote : list string -> string -> response.

(** [str(v)], as an f-string formats [v]. *)
Definition py_str (v : value) : string :=
  match v with
  | VStr s => s
  | _ => py_repr v
  end.

(** The request is issued (and recorded) whether or not it succeeds; a
    failed one is re-raised as a plain [Exception]. *)
Definition _make_request (endpoint : string) : M value := fun log =>
  (match remote log endpoint with
   | Answer body => Ok body
   | Failure reason =>
       Raise (Exn PlainException ("vCenter API request failed: " +:+ reason))
   end, (log ++ endpoint :: nil)%list).

(** [len(...)] inside the log message is evaluated inside the [try]. *)
Definition get_clusters : M value :=
  try_except
    (response ← _make_request "vcenter/cluster";
     clusters ← lift (py_get response "value" (VList nil));
     _ ← lift (py_len clusters);
     mret clusters)
    (fun _ => mret (VList nil)).

Definition get_resource_pools (cluster_id : value) : M value :=
  try_except
    (let endpoint := "vcenter/resource-pool" in
     let endpoint :=
       if truthy cluster_id then endpoint +:+ "?clusters=" +:+ py_str cluster_id
       else endpoint in
     response ← _make_request endpoint;
     resource_pools ← lift (py_get response "value" (VList nil));
     _ ← lift (py_len resource_pools);
     mret resource_pools)
    (fun _ => mret (VList nil)).

Definition get_virtual_machines (cluster_id resource_pool_id : value) : M value :=
  try_except
    (let endpoint := "vcenter/vm" in
     let params :=
       ((if truthy cluster_id
         then ("clusters=" +:+ py_str cluster_id) :: nil else nil)
        ++ (if truthy resource_pool_id
            then ("resource_pools=" +:+ py_str resource_pool_id) :: nil else nil))%list in
     let endpoint :=
       match params with
       | nil => endpoint
       | _ => endpoint +:+ "?" +:+ join "&" params
       end in
     response ← _make_request endpoint;
     vms ← lift (py_get response "value" (VList nil));
     _ ← lift (py_len vms);
     mret vms)
    (fun _ => mret (VList nil)).

Definition test_connection : M bool :=
  try_except
    (_ ← get_clusters; mret true)
    (fun _ => mret false).

End Methods.
End VCenterService.

(** ** VCenterController (controllers/vcenter_controller.py) *)

Module VCenterController.

Record t : Type := mk { config : VCenterConfig; service : VCenterService.t }.

(** [__init__]: the controller keeps the configuration and builds its
    client from it. *)
Definition __init__ (config : VCenterConfig) : outcome t :=
  service ← VCenterService.__init__ config;
  mret (mk config service).

Section Methods.

Variable py_repr : value -> string.
Variable remote : list string -> string -> response.

(** [self.config]; [self.service] is the client above, reached through
    [remote]. *)
Variable config : VCenterConfig.

Definition unknown : value := VStr "Unknown".

Definition to_cluster (raw_cluster : value) : outcome Cluster :=
  cid ← py_get raw_cluster "cluster" unknown;
  nm ← py_get raw_cluster "name" unknown;
  mret (mkCluster cid nm VNone).

Definition get_clusters : M (list Cluster) :=
  try_except
    (raw_clusters ← VCenterService.get_clusters remote;
     items ← lift (py_iter raw_clusters);
     lift (mapM to_cluster items))
    (fun _ => mret nil).

(** The loop of [get_cluster_by_name]. *)
Fixpoint scan_clusters (clusters : list Cluster) (cluster_name : string)
  : option Cluster :=
  match clusters with
  | nil => None
  | cluster :: rest =>
      if eq_str (name cluster) cluster_name then Some cluster
      else scan_clusters rest cluster_name
  end.

Definition get_cluster_by_name (cluster_name : string) : M (option Cluster) :=
  clusters ← get_clusters;
  mret (scan_clusters clusters cluster_name).

Definition to_resource_pool (owner : value) (raw_rp : value) : outcome ResourcePool :=
  rid ← py_get raw_rp "resource_pool" unknown;
  nm ← py_get raw_rp "name" unknown;
  mret (mkResourcePool rid nm owner).

Definition get_resource_pools_in_cluster (cluster_name : string)
  : M (list ResourcePool) :=
  try_except
    (found ← get_cluster_by_name cluster_name;
     match found with
     | None => mret nil
     | Some cluster =>
         raw_resource_pools ←
           VCenterService.get_resource_pools py_repr remote (cluster_id cluster);
         items ← lift (py_iter raw_resource_pools);
         lift (mapM (to_resource_pool (cluster_id cluster)) items)
     end)
    (fun _ => mret nil).

(** The loop of [get_resource_pool_by_name]: the raw [name] is compared,
    [None] when the record has none. *)
Fixpoint scan_resource_pools (raw : list value) (resource_pool_name : string)
  : outcome (option ResourcePool) :=
  match raw with
  | nil => mret None
  | raw_rp :: rest =>
      nm ← py_get raw_rp "name" VNone;
      if eq_str nm resource_pool_name then
        rp ← to_resource_pool VNone raw_rp;
        mret (Some rp)
      else scan_resource_pools rest resource_pool_name
  end.

Definition get_resource_pool_by_name (resource_pool_name : string)
  : M (option ResourcePool) :=
  raw_resource_pools ← VCenterService.get_resource_pools py_repr remote VNone;
  items ← lift (py_iter raw_resource_pools);
  lift (scan_resource_pools items resource_pool_name).

Definition to_vm (cluster pool : value) (raw_vm : value) : outcome VirtualMachine :=
  vid ← py_get raw_vm "vm" unknown;
  nm ← py_get raw_vm "name" unknown;
  ps ← py_get raw_vm "power_state" unknown;
  mret (mkVirtualMachine vid nm ps cluster pool).

Definition get_vms_in_cluster (cluster_name : string) : M (list VirtualMachine) :=
  try_except
    (found ← get_cluster_by_name cluster_name;
     match found with
     | None => mret nil
     | Some cluster =>
         raw_vms ← VCenterService.get_virtual_machines py_repr remote
                     (cluster_id cluster) VNone;
         items ← lift (py_iter raw_vms);
         lift (mapM (to_vm (cluster_id cluster) VNone) items)
     end)
    (fun _ => mret nil).

Definition get_vms_in_resource_pool (resource_pool_name : string)
  : M (list VirtualMachine) :=
  try_except
    (found ← get_resource_pool_by_name resource_pool_name;
     match found with
     | None => mret nil
     | Some resource_pool =>
         raw_vms ← VCenterService.get_virtual_machines py_repr remote
                     VNone (resource_pool_id resource_pool);
         items ← lift (py_iter raw_vms);
         lift (mapM (to_vm VNone (resource_pool_id resource_pool)) items)
     end)
    (fun _ => mret nil).

Definition count (n : nat) : value := VInt (Z.of_nat n).

(** The status dictionary, keys in the order the source writes them. *)
Definition get_vcenter_status : M value :=
  try_except
    (connected ← VCenterService.test_connection remote;
     if negb connected then
       mret (VDict (("connection_status", VStr "Failed")
                    :: ("host", host config)
                    :: ("error", VStr "Cannot connect to vCenter") :: nil))
     else
       clusters ← get_clusters;
       raw_resource_pools ← VCenterService.get_resource_pools py_repr remote VNone;
       raw_vms ← VCenterService.get_virtual_machines py_repr remote VNone VNone;
       n_pools ← lift (py_len raw_resource_pools);
       n_vms ← lift (py_len raw_vms);
       mret (VDict (("host", host config)
                    :: ("clusters_count", count (length clusters))
                    :: ("resource_pools_count", count n_pools)
                    :: ("vms_count", count n_vms)
                    :: ("connection_status", VStr "Connected") :: nil)))
    (fun e =>
       mret (VDict (("connection_status", VStr "Error")
                    :: ("host", host config)
                    :: ("error", VStr (exn_msg e)) :: nil))).

End Methods.
End VCenterController.

(** ** MCPToolsView (views/mcp_tools.py) *)

Module MCPToolsView.
Section Methods.

Variable py_repr : value -> string.
Variable remote : list string -> string -> response.

Definition cluster_line (cluster : Cluster) : string :=
  "- " +:+ VCenterService.py_str py_repr (name cluster)
  +:+ " (ID: " +:+ VCenterService.py_str py_repr (cluster_id cluster) +:+ ")" +:+ nl.

(** [result += line] for each cluster, from the header on. *)
Definition cluster_lines (clusters : list Cluster) : string :=
  fold_left (fun result cluster => result +:+ cluster_line cluster) clusters
            ("Clusters in vCenter:" +:+ nl).

(** The tool registered as [list_clusters]. *)
Definition list_clusters : M string :=
  try_except
    (clusters ← VCenterController.get_clusters remote;
     match clusters with
     | nil => mret "No clusters found in vCenter"
     | _ => mret (cluster_lines clusters)
     end)
    (fun e => mret ("Error listing clusters: " +:+ exn_msg e)).

Definition format_cluster_list (clusters : list Cluster) : string :=
  match clusters with
  | nil => "No clusters found"
  | _ => cluster_lines clusters
  end.

(** [self.controller.config] *)
Variable config : VCenterConfig.

Definition vm_line (vm : VirtualMachine) : string :=
  "- " +:+ VCenterService.py_str py_repr (vm_name vm)
  +:+ " (Power: " +:+ VCenterService.py_str py_repr (power_state vm) +:+ ")" +:+ nl.

Definition resource_pool_line (rp : ResourcePool) : string :=
  "- " +:+ VCenterService.py_str py_repr (rp_name rp)
  +:+ " (ID: " +:+ VCenterService.py_str py_repr (resource_pool_id rp) +:+ ")" +:+ nl.

(** The tool registered as [list_vms_in_cluster]. *)
Definition list_vms_in_cluster (cluster_name : string) : M string :=
  try_except
    (vms ← VCenterController.get_vms_in_cluster py_repr remote cluster_name;
     match vms with
     | nil => mret ("No virtual machines found in cluster '" +:+ cluster_name +:+ "'")
     | _ =>
         mret (fold_left (fun result vm => result +:+ vm_line vm) vms
                 ("Virtual machines in cluster '" +:+ cluster_name +:+ "':" +:+ nl))
     end)
    (fun e => mret ("Error listing VMs in cluster: " +:+ exn_msg e)).

(** The tool registered as [list_resource_pools]. *)
Definition list_resource_pools (cluster_name : string) : M string :=
  try_except
    (resource_pools ←
       VCenterController.get_resource_pools_in_cluster py_repr remote cluster_name;
     match resource_pools with
     | nil => mret ("No resource pools found in cluster '" +:+ cluster_name +:+ "'")
     | _ =>
         mret (fold_left (fun result rp => result +:+ resource_pool_line rp)
                 resource_pools
                 ("Resource pools in cluster '" +:+ cluster_name +:+ "':" +:+ nl))
     end)
    (fun e => mret ("Error listing resource pools: " +:+ exn_msg e)).

(** The tool registered as [list_vms_in_resource_pool]. *)
Definition list_vms_in_resource_pool (resource_pool_name : string) : M string :=
  try_except
    (vms ← VCenterController.get_vms_in_resource_pool py_repr remote
             resource_pool_name;
     match vms with
     | nil =>
         mret ("No virtual machines found in resource pool '"
               +:+ resource_pool_name +:+ "'")
     | _ =>
         mret (fold_left (fun result vm => result +:+ vm_line vm) vms
                 ("Virtual machines in resource pool '" +:+ resource_pool_name
                  +:+ "':" +:+ nl))
     end)
    (fun e => mret ("Error listing VMs in resource pool: " +:+ exn_msg e)).

Definition format_vm_list (vms : list VirtualMachine) (context : string) : string :=
  match vms with
  | nil => "No virtual machines found in " +:+ context
  | _ =>
      fold_left (fun result vm => result +:+ vm_line vm) vms
        ("Virtual machines in " +:+ context +:+ ":" +:+ nl)
  end.

Definition format_resource_pool_list (resource_pools : list ResourcePool)
           (context : string) : string :=
  match resource_pools with
  | nil => "No resource pools found in " +:+ context
  | _ =>
      fold_left (fun result rp => result +:+ resource_pool_line rp) resource_pools
        ("Resource pools in " +:+ context +:+ ":" +:+ nl)
  end.

(** [format_status]: [status_data.get] raises when the argument is no dict. *)
Definition format_status (status_data : value) : outcome string :=
  let field k dflt := s ← py_get status_data k dflt; mret (VCenterService.py_str py_repr s) in
  status ← py_get status_data "connection_status" VNone;
  if eq_str status "Failed" then
    e ← field "error" (VStr "Unknown error");
    mret ("Error: " +:+ e)
  else
    status ← py_get status_data "connection_status" VNone;
    if eq_str status "Error" then
      e ← field "error" (VStr "Unknown error");
      mret ("Error getting vCenter status: " +:+ e)
    else
      h ← field "host" (VStr "Unknown");
      c ← field "clusters_count" (VInt 0);
      r ← field "resource_pools_count" (VInt 0);
      v ← field "vms_count" (VInt 0);
      k ← field "connection_status" (VStr "Unknown");
      mret ("vCenter Status:" +:+ nl
            +:+ "- Connected to: " +:+ h +:+ nl
            +:+ "- Clusters: " +:+ c +:+ nl
            +:+ "- Resource Pools: " +:+ r +:+ nl
            +:+ "- Virtual Machines: " +:+ v +:+ nl
            +:+ "- Connection: " +:+ k +:+ nl).

(** The tool registered as [get_vcenter_status]. *)
Definition get_vcenter_status : M string :=
  try_except
    (status_data ← VCenterController.get_vcenter_status py_repr remote config;
     lift (format_status status_data))
    (fun e => mret ("Error getting vCenter status: " +:+ exn_msg e)).

End Methods.
End MCPToolsView.

(** ** The server factory (server_factory.py) *)

Module ServerFactory.

(** What the FastMCP application has been given: its name, its custom
    routes (path, methods, the JSON answered), and the tools in the order of
    their registration (name, description), bound to the view's controller. *)
Record FastMCP : Type := mkApp {
  app_name : string;
  custom_routes : list (string * list string * value);
  tools : list (string * string);
  controller : VCenterController.t
}.

Definition health_check : value :=
  VDict (("status", VStr "healthy")
         :: ("service", VStr "vcenter-mcp")
         :: ("version", VStr "1.0.0") :: nil).

(** [MCPToolsView.register_tools]: the five decorated handlers. *)
Definition registered_tools : list (string * string) :=
  ("list_clusters",
   "List all clusters in vCenter. Returns a formatted list of all available clusters with their names and IDs.")
  :: ("list_vms_in_cluster",
      "List all virtual machines in a specific cluster. Requires the cluster name as input and returns a formatted list of VMs with their names and power states.")
  :: ("list_resource_pools",
      "List all resource pools in a specific cluster. Requires the cluster name as input and returns a formatted list of resource pools with their names and IDs.")
  :: ("list_vms_in_resource_pool",
      "List all virtual machines in a specific resource pool. Requires the resource pool name as input and returns a formatted list of VMs with their names and power states.")
  :: ("get_vcenter_status",
      "Get vCenter connection status and basic information. Returns connection status, host information, and counts of clusters, resource pools, and virtual machines.")
  :: nil.

(** The [except Exception] clause logs and re-raises. *)
Definition create_mcp_server_with_config (config : VCenterConfig) : outcome FastMCP :=
  otry
    (controller ← VCenterController.__init__ config;
     mret (mkApp "vcenter-mcp"
                 (("/health", "GET" :: nil, health_check) :: nil)
                 registered_tools controller))
    (fun e => Raise e).

Section Methods.

Variable max_str_digits : nat.
Variable json_loads : string -> option value.

Definition create_mcp_server (env : gmap string string) : outcome FastMCP :=
  otry
    (config ← ConfigManager.get_vcenter_config max_str_digits json_loads env;
     controller ← VCenterController.__init__ config;
     mret (mkApp "vcenter-mcp"
                 (("/health", "GET" :: nil, health_check) :: nil)
                 registered_tools controller))
    (fun e => Raise e).

End Methods.
End ServerFactory.

(** ** The entry point (__main__.py) *)

Module Main.

(** How the process ends: [main_async] returns, or [sys.exit(code)]. *)
Inductive ending : Type :=
  | Returned
  | Exit (code : Z).

Section Methods.

Variable max_str_digits : nat.
Variable json_loads : string -> option value.

(** [app.run_http_async(transport="http", host=host, port=port)]: serving
    ends by returning or by raising. *)
Variable run_http_async : ServerFactory.FastMCP -> string -> Z -> outcome unit.

(** [int(os.getenv('PORT', 8080))]: the default is the integer itself. *)
Definition resolve_port (env : gmap string string) : outcome Z :=
  match env !! "PORT" with
  | Some s => py_int max_str_digits s
  | None => Ok 8080
  end.

(** [except Exception] ends the process with status 1 (the
    [KeyboardInterrupt] clause is outside the exceptions modelled). *)
Definition main_async (env : gmap string string) : ending :=
  match (port ← resolve_port env;
         let host := getenv_default env "HOST" "0.0.0.0" in
         app ← ServerFactory.create_mcp_server max_str_digits json_loads env;
         run_http_async app host port) with
  | Ok _ => Returned
  | Raise _ => Exit 1
  end.

(** [main]: [sys.exit] inside [main_async] is no [Exception], it passes
    through [asyncio.run] and the handlers of [main]. *)
Definition main (env : gmap string string) : ending := main_async env.

End Methods.
End Main.

(** ** The connection test script (test_connection.py)

    [print] writes to the standard output and raises when the output
    cannot take the text (UnicodeEncodeError on an output whose encoding
    lacks a character of it); every [print] of the script is inside its
    [try], the one of the handler excepted.  What is printed is not
    recorded, whether printing raises is. *)

Module TestConnection.
Section Methods.

Variable max_str_digits : nat.
Variable json_loads : string -> option value.
Variable py_repr : value -> string.
Variable remote : list string -> string -> response.
Variable print : string -> outcome unit.

Definition say (text : string) : M unit := lift (print text).

Fixpoint first_chars (n : nat) (s : string) : string :=
  match n, s with
  | S n', String c s' => String c (first_chars n' s')
  | _, _ => EmptyString
  end.

(** [v[:3]]: a list or a string is sliced; a dict refuses a slice as key
    (TypeError, KeyError from Python 3.12 on), other values no subscript. *)
Definition py_slice3 (v : value) : outcome value :=
  match v with
  | VList l => Ok (VList (firstn 3 l))
  | VStr s => Ok (VStr (first_chars 3 s))
  | VDict _ => Raise (Exn TypeError "unhashable type: 'slice'")
  | _ => Raise (Exn TypeError ("'" +:+ type_name v +:+ "' object is not subscriptable"))
  end.

(** [for cluster in clusters[:3]: print(f"  - {cluster.get('name', 'Unknown')}")] *)
Fixpoint show_names (items : list value) : M unit :=
  match items with
  | nil => mret tt
  | cluster :: rest =>
      nm ← lift (py_get cluster "name" (VStr "Unknown"));
      _ ← say ("  - " +:+ VCenterService.py_str py_repr nm);
      show_names rest
  end.

Definition found (n : nat) : string := py_repr (VInt (Z.of_nat n)).

Definition test_connection (env : gmap string string) : M bool :=
  try_except
    (config ← lift (ConfigManager.get_vcenter_config max_str_digits json_loads env);
     _ ← say "✓ Configuration loaded successfully";
     _ ← say ("  Host: " +:+ VCenterService.py_str py_repr (host config));
     _ ← say ("  Username: " +:+ VCenterService.py_str py_repr (username config));
     _ ← say ("  SSL Verify: " +:+ py_repr (VBool (verify_ssl config)));
     _ ← say ("  Timeout: " +:+ py_repr (VInt (timeout config)) +:+ "s");
     service ← lift (VCenterService.__init__ config);
     _ ← say "✓ VCenter service created successfully";
     _ ← say (nl +:+ "Testing API calls...");
     clusters ← VCenterService.get_clusters remote;
     n_clusters ← lift (py_len clusters);
     _ ← say ("✓ Clusters API: Found " +:+ found n_clusters +:+ " clusters");
     shown ← lift (py_slice3 clusters);
     items ← lift (py_iter shown);
     _ ← show_names items;
     resource_pools ← VCenterService.get_resource_pools py_repr remote VNone;
     n_pools ← lift (py_len resource_pools);
     _ ← say ("✓ Resource Pools API: Found " +:+ found n_pools +:+ " resource pools");
     vms ← VCenterService.get_virtual_machines py_repr remote VNone VNone;
     n_vms ← lift (py_len vms);
     _ ← say ("✓ Virtual Machines API: Found " +:+ found n_vms +:+ " VMs");
     status ← VCenterService.test_connection remote;
     _ ← say ("✓ Connection test: " +:+ (if status : bool then "PASSED" else "FAILED"));
     _ ← say (nl +:+ "🎉 All tests passed! vCenter connection is working correctly.");
     mret true)
    (fun e =>
       _ ← say ("❌ Test failed: " +:+ exn_msg e);
       mret false).

End Methods.
End TestConnection.

(** ** The environment setup script (setup_env.py)

    The [.env] file is represented by the lines [readlines()] returns and
    [writelines()] receives, [None] when the file does not exist.  Message
    literals outside Latin-1 are held as their UTF-8 bytes. *)

Module SetupEnv.







(** The loop of [update_env_value]: the first line starting with [key=] is
    replaced, and the loop stops there. *)
Fixpoint replace_first (key value : string) (lines : list string)
  : list string * bool :=
  match lines with
  | nil => (nil, false)
  | line :: rest =>
      if String.prefix (key +:+ "=") line
      then ((key +:+ "=" +:+ value +:+ nl) :: rest, true)
      else let (rest', updated) := replace_first key value rest in
           (line :: rest', updated)
  end.

(** [update_env_value]: the file afterwards and what is printed. *)
Definition update_env_value (key value : string) (file : option (list string))
  : option (list string) * list string :=
  match file with
  | None => (None, nil)
  | Some lines =>
      let (lines', updated) := replace_first key value lines in
      (Some lines',
       (if updated then "✅ Updated " +:+ key
        else "⚠️  Could not find " +:+ key +:+ " in .env file") :: nil)
  end.




(** *** The file as text

    [open('.env', 'r')] reads with universal newlines: CR LF and a lone CR
    arrive as LF.  [readlines()] and the iteration over the file cut the
    text after every LF; [writelines(lines)] writes the lines one after
    the other (the line ends a platform writes for LF are read back as
    LF). *)

Definition is_lf (c : ascii) : bool := (code c =? 10)%nat.
Definition is_cr (c : ascii) : bool := (code c =? 13)%nat.

Fixpoint universal_newlines (after_cr : bool) (s : string) : string :=
  match s with
  | EmptyString => EmptyString
  | String c s' =>
      if is_cr c then String (ascii_of_nat 10) (universal_newlines true s')
      else if is_lf c then
        if after_cr then universal_newlines false s'
        else String c (universal_newlines false s')
      else String c (universal_newlines false s')
  end.

Fixpoint split_lines (s : string) : list string :=
  match s with
  | EmptyString => nil
  | String c s' =>
      if is_lf c then String c EmptyString :: split_lines s'
      else match split_lines s' with
           | nil => String c EmptyString :: nil
           | line :: rest => String c line :: rest
           end
  end.

Definition readlines (text : string) : list string :=
  split_lines (universal_newlines false text).

Fixpoint writelines (lines : list string) : string :=
  match lines with
  | nil => EmptyString
  | line :: rest => line +:+ writelines rest
  end.

(** [update_env_value] from the file it opens to the file it leaves. *)
Definition update_env_file (key value : string) (file : option string)
  : option string * list string :=
  let (written, printed) := update_env_value key value (option_map readlines file) in
  (option_map writelines written, printed).


End SetupEnv.

(** ** Vocabulary of the statements *)

(** A remote whose cluster endpoint fails on every request. *)
Definition cluster_endpoint_down (reason : string)
           (others : list string -> string -> response)
  : list string -> string -> response :=
  fun log endpoint =>
    if String.eqb endpoint "vcenter/cluster" then Failure reason
    else others log endpoint.

(** The raw record [r] carries exactly the name [q]. *)
Definition raw_name_matches (r : value) (q : string) : bool :=
  match r with
  | VDict d =>
      match dict_lookup d "name" with
      | Some v => eq_str v q
      | None => false
      end
  | _ => false
  end.

(** Sample data for the statements below. *)
Definition sample_repr (v : value) : string := "<value>".

Definition sample_config : VCenterConfig :=
  mkVCenterConfig (VStr "https://vc") (VStr "admin") (VStr "secret") true 30.

Definition envelope (items : list value) : response :=
  Answer (VDict (("value", VList items) :: nil)).

Definition sample_remote : list string -> string -> response :=
  fun _ endpoint =>
    if String.eqb endpoint "vcenter/cluster" then
      envelope (VDict (("cluster", VStr "c1") :: ("name", VStr "Prod") :: nil)
                :: VDict (("cluster", VStr "c2") :: ("name", VStr "Test") :: nil)
                :: nil)
    else if String.eqb endpoint "vcenter/resource-pool" then
      envelope (VDict (("resource_pool", VStr "rp1") :: ("name", VStr "Gold") :: nil)
                :: VDict (("resource_pool", VStr "rp2") :: nil)
                :: nil)
    else envelope (VDict (("vm", VStr "vm1") :: ("name", VStr "web")
                          :: ("power_state", VStr "POWERED_ON") :: nil) :: nil).

(** [n] slashes. *)
Fixpoint slashes (n : nat) : string :=
  match n with
  | O => ""
  | S n' => String "/" (slashes n')
  end.

Fixpoint ends_with_slash (s : string) : bool :=
  match s with
  | EmptyString => false
  | String c EmptyString => Ascii.eqb c "/"
  | String _ s' => ends_with_slash s'
  end.

Definition either (c a b : ascii) : bool := Ascii.eqb c a || Ascii.eqb c b.

(** The word "false" in any mix of upper and lower case. *)
Definition spelled_false (s : string) : bool :=
  match s with
  | String c1 (String c2 (String c3 (String c4 (String c5 EmptyString)))) =>
      either c1 "f" "F" && either c2 "a" "A" && either c3 "l" "L"
      && either c4 "s" "S" && either c5 "e" "E"
  | _ => false
  end.

Definition env_of (l : list (string * string)) : gmap string string :=
  list_to_map l.

Definition env_credentials : list (string * string) :=
  ("VCENTER_HOST", "https://vc/") :: ("VCENTER_USERNAME", "admin")
  :: ("VCENTER_PASSWORD", "secret") :: nil.

Definition no_json (doc : string) : option value := None.

Definition env_verify_capitalised : list (string * string) :=
  ("VCENTER_VERIFY_SSL", "False") :: env_credentials.


Definition sample_binding : value :=
  VDict (("user-provided",
          VList (VDict (("name", VStr "my-vcenter")
                        :: ("credentials",
                            VDict (("host", VStr "https://bound")
                                   :: ("username", VStr "svc")
                                   :: ("password", VStr "pw") :: nil))
                        :: nil) :: nil)) :: nil).

Definition sample_json (doc : string) : option value := Some sample_binding.

Definition env_with_binding : list (string * string) :=
  ("VCAP_SERVICES", "{...}") :: env_credentials.



Definition timeout_variable (env : gmap string string) : option string :=
  env !! "VCENTER_TIMEOUT".

(** *** Service bindings of the documented shape

    A mapping from service type to a list of descriptor objects; in a
    descriptor [name] and [label] are strings when present and
    [credentials] is an object when present. *)

(** The text of field [k], an absent field counting as the empty text. *)
Definition text_field (d : list (string * value)) (k : string) : option string :=
  match dict_lookup d k with
  | None => Some ""
  | Some (VStr s) => Some s
  | Some _ => None
  end.

Definition descriptor_shaped (v : value) : bool :=
  match v with
  | VDict d =>
      match text_field d "name", text_field d "label", dict_lookup d "credentials" with
      | Some _, Some _, (None | Some (VDict _)) => true
      | _, _, _ => false
      end
  | _ => false
  end.

Definition bucket_shaped (kv : string * value) : bool :=
  match snd kv with
  | VList l => forallb descriptor_shaped l
  | _ => false
  end.

Definition well_shaped (services : value) : bool :=
  match services with
  | VDict buckets => forallb bucket_shaped buckets
  | _ => false
  end.

Definition bucket_descriptors (kv : string * value) : list value :=
  match snd kv with
  | VList l => l
  | _ => nil
  end.

(** Every descriptor of every service type, in iteration order. *)
Definition descriptors (services : value) : list value :=
  match services with
  | VDict buckets => concat (map bucket_descriptors buckets)
  | _ => nil
  end.

Definition mentions_keyword (s : string) : bool :=
  existsb (fun keyword => contains keyword (lower s)) ConfigManager.vcenter_keywords.

(** The name or the label contains a keyword, case-insensitively. *)
Definition keyword_matching (v : value) : bool :=
  match v with
  | VDict d =>
      match text_field d "name", text_field d "label" with
      | Some n, Some l => mentions_keyword n || mentions_keyword l
      | _, _ => false
      end
  | _ => false
  end.

(** The three credential fields, when all are present and none is empty
    (or otherwise falsy). *)
Definition usable_credentials (v : value) : option VCenterCredentials :=
  match v with
  | VDict d =>
      match dict_lookup d "credentials" with
      | Some (VDict c) =>
          match dict_lookup c "host", dict_lookup c "username",
                dict_lookup c "password" with
          | Some h, Some u, Some p =>
              if truthy h && truthy u && truthy p
              then Some (mkVCenterCredentials h u p) else None
          | _, _, _ => None
          end
      | _ => None
      end
  | _ => None
  end.

Fixpoint first_usable (l : list value) : option VCenterCredentials :=
  match l with
  | nil => None
  | d :: rest =>
      match (if keyword_matching d then usable_credentials d else None) with
      | Some c => Some c
      | None => first_usable rest
      end
  end.

Definition unusable (d : value) : Prop :=
  keyword_matching d = false \/ usable_credentials d = None.

Definition descriptor_empty_host : value :=
  VDict (("name", VStr "vcenter")
         :: ("credentials",
             VDict (("host", VStr "") :: ("username", VStr "u")
                    :: ("password", VStr "p") :: nil)) :: nil).

Definition binding_empty_host : value :=
  VDict (("user-provided", VList (descriptor_empty_host :: nil)) :: nil).

Definition env_binding_only : list (string * string) :=
  ("VCAP_SERVICES", "{...}") :: nil.

(** *** Vocabulary of the further properties *)

(** What a listing makes of the remote's response: the [value] member of a
    JSON object when it is a list, a dict or a string, and the empty list in
    every other case. *)
Definition envelope_items (r : response) : value :=
  match r with
  | Answer (VDict d) =>
      match dict_lookup d "value" with
      | Some v => if iterable v then v else VList nil
      | None => VList nil
      end
  | _ => VList nil
  end.

Definition is_dict (v : value) : bool :=
  match v with
  | VDict _ => true
  | _ => false
  end.

(** Field [k] of a raw record, "Unknown" when the record has none. *)
Definition field_or_unknown (v : value) (k : string) : value :=
  match v with
  | VDict d => default (VStr "Unknown") (dict_lookup d k)
  | _ => VStr "Unknown"
  end.

Definition cluster_of (raw : value) : Cluster :=
  mkCluster (field_or_unknown raw "cluster") (field_or_unknown raw "name") VNone.

Definition all_fail : list string -> string -> response :=
  fun _ _ => Failure "connection refused".

(** The variable [k] is set to a non-empty string. *)
Definition set_nonempty (env : gmap string string) (k : string) : bool :=
  match env !! k with
  | Some s => negb (String.eqb s "")
  | None => false
  end.

(** The binding variable is unset, empty, or holds no JSON document. *)
Definition binding_unreadable (jl : string -> option value)
           (env : gmap string string) : Prop :=
  match env !! "VCAP_SERVICES" with
  | None => True
  | Some doc => doc = "" \/ jl doc = None
  end.

Definition env_partial : list (string * string) :=
  ("VCENTER_HOST", "https://vc") :: ("VCENTER_PASSWORD", "secret")
  :: ("VCAP_SERVICES", "not json") :: nil.

(** A binding whose first descriptor is [null] and whose second is usable. *)
Definition binding_null_first : value :=
  VDict (("user-provided",
          VList (VNone
                 :: VDict (("name", VStr "my-vcenter")
                           :: ("credentials",
                               VDict (("host", VStr "https://bound")
                                      :: ("username", VStr "svc")
                                      :: ("password", VStr "pw") :: nil))
                           :: nil) :: nil)) :: nil).

Definition env_bad_port : list (string * string) :=
  ("PORT", "80a") :: ("VCENTER_TIMEOUT", "80a") :: env_credentials.

Definition serve_ok : ServerFactory.FastMCP -> string -> Z -> outcome unit :=
  fun _ _ _ => Ok tt.

(** A [.env] file with a comment, a duplicated key and a password. *)
Definition sample_env_file : list string :=
  ("# vCenter" +:+ nl) :: ("VCENTER_HOST=old" +:+ nl)
  :: ("VCENTER_PASSWORD=hunter2hunter2" +:+ nl)
  :: ("VCENTER_HOST=dup" +:+ nl) :: nil.


(** The three credentials, a complete binding and both optional variables. *)
Definition env_all_set : list (string * string) :=
  ("VCENTER_VERIFY_SSL", "false") :: ("VCENTER_TIMEOUT", "45") :: env_with_binding.

Definition is_str (v : value) : bool :=
  match v with
  | VStr _ => true
  | _ => false
  end.

(** A binding whose host is a JSON number. *)
Definition binding_numeric_host : value :=
  VDict (("user-provided",
          VList (VDict (("name", VStr "my-vcenter")
                        :: ("credentials",
                            VDict (("host", VInt 8443)
                                   :: ("username", VStr "svc")
                                   :: ("password", VStr "pw") :: nil))
                        :: nil) :: nil)) :: nil).

(** An output that takes every text. *)
Definition print_all : string -> outcome unit := fun _ => Ok tt.

(** The text holds no line break (LF or CR). *)
Fixpoint break_free (s : string) : bool :=
  match s with
  | EmptyString => true
  | String c s' => negb (SetupEnv.is_lf c) && negb (SetupEnv.is_cr c) && break_free s'
  end.

Fixpoint cr_free (s : string) : bool :=
  match s with
  | EmptyString => true
  | String c s' => negb (SetupEnv.is_cr c) && cr_free s'
  end.

(** A line with its end: no line break but the LF that closes it. *)
Fixpoint terminated (s : string) : bool :=
  match s with
  | EmptyString => false
  | String c s' =>
      if SetupEnv.is_lf c then match s' with EmptyString => true | _ => false end
      else negb (SetupEnv.is_cr c) && terminated s'
  end.

(** Lines as [readlines()] returns them: each with its end, the last one
    possibly without but then not empty. *)
Fixpoint as_read (lines : list string) : bool :=
  match lines with
  | nil => true
  | line :: rest =>
      (terminated line
       || (match rest with nil => true | _ => false end
           && break_free line && negb (String.eqb line "")))
      && as_read rest
  end.

Definition sample_env_text : string := SetupEnv.writelines sample_env_file.

(** * Properties *)

(** ** The API client never raises *)

Section ClientFacts.

Variable py_repr : value -> string.
Variable remote : list string -> string -> response.

(** What the three listings share once the endpoint is known. *)
Lemma envelope_total (endpoint : string) (log : list string) :
  exists v,
    try_except
      (response ← VCenterService._make_request remote endpoint;
       items ← lift (py_get response "value" (VList nil));
       _ ← lift (py_len items);
       mret items)
      (fun _ => mret (VList nil)) log
    = (Ok v, (log ++ endpoint :: nil)%list)
    /\ iterable v = true.
Proof.
  unfold try_except, mbind, M_bind, VCenterService._make_request, lift, mret, M_ret.
  destruct (remote log endpoint) as [body|reason]; cbn.
  - destruct body; cbn; try (eexists; split; [reflexivity|reflexivity]).
    destruct (dict_lookup d "value") as [items|]; cbn.
    + destruct items; cbn; eexists; split; reflexivity.
    + eexists; split; reflexivity.
  - eexists; split; reflexivity.
Qed.

Lemma service_get_clusters_total (log : list string) :
  exists v,
    VCenterService.get_clusters remote log
    = (Ok v, (log ++ "vcenter/cluster" :: nil)%list)
    /\ iterable v = true.
Proof. apply envelope_total. Qed.

Lemma service_get_resource_pools_total (cluster_id : value) (log : list string) :
  exists v endpoint,
    VCenterService.get_resource_pools py_repr remote cluster_id log
    = (Ok v, (log ++ endpoint :: nil)%list)
    /\ iterable v = true
    /\ (truthy cluster_id = false -> endpoint = "vcenter/resource-pool").
Proof.
  unfold VCenterService.get_resource_pools.
  destruct (truthy cluster_id).
  - destruct (envelope_total
                ("vcenter/resource-pool" +:+ "?clusters="
                 +:+ VCenterService.py_str py_repr cluster_id) log)
      as (v & Hv & Hi).
    exists v; eexists; split; [exact Hv|]. split; [exact Hi|discriminate].
  - destruct (envelope_total "vcenter/resource-pool" log) as (v & Hv & Hi).
    exists v; eexists; split; [exact Hv|]. split; [exact Hi|reflexivity].
Qed.

Lemma service_get_virtual_machines_total (cluster_id pool_id : value)
      (log : list string) :
  exists v endpoint,
    VCenterService.get_virtual_machines py_repr remote cluster_id pool_id log
    = (Ok v, (log ++ endpoint :: nil)%list)
    /\ iterable v = true.
Proof.
  unfold VCenterService.get_virtual_machines.
  match goal with
  | |- context [try_except (mbind _ (VCenterService._make_request _ ?ep))] =>
      destruct (envelope_total ep log) as (v & Hv & Hi)
  end.
  exists v; eexists; split; [exact Hv|exact Hi].
Qed.

(** [test_connection] cannot see a failure: [get_clusters] has already
    turned it into an empty listing. *)
Lemma test_connection_always_true (log : list string) :
  VCenterService.test_connection remote log
  = (Ok true, (log ++ "vcenter/cluster" :: nil)%list).
Proof.
  unfold VCenterService.test_connection, try_except, mbind, M_bind at 1.
  destruct (service_get_clusters_total log) as (v & Hv & _).
  rewrite Hv. reflexivity.
Qed.

(** The controller's listing never raises either. *)
Lemma get_clusters_total (log : list string) :
  exists clusters,
    VCenterController.get_clusters remote log
    = (Ok clusters, (log ++ "vcenter/cluster" :: nil)%list).
Proof.
  unfold VCenterController.get_clusters, try_except, mbind, M_bind at 1.
  destruct (service_get_clusters_total log) as (v & Hv & Hi).
  rewrite Hv. unfold M_bind, lift, py_iter. rewrite Hi.
  destruct (mapM VCenterController.to_cluster (iter_items v)); eexists; reflexivity.
Qed.

End ClientFacts.

(** ** Running the monad *)

Lemma run_bind_ok {A B} (m : M A) (k : A -> M B) log a log' :
  m log = (Ok a, log') -> (m ≫= k) log = k a log'.
Proof. intros H. unfold mbind, M_bind. now rewrite H. Qed.

Lemma run_bind_raise {A B} (m : M A) (k : A -> M B) log e log' :
  m log = (Raise e, log') -> (m ≫= k) log = (Raise e, log').
Proof. intros H. unfold mbind, M_bind. now rewrite H. Qed.

Lemma run_try_ok {A} (m : M A) h log a log' :
  m log = (Ok a, log') -> try_except m h log = (Ok a, log').
Proof. intros H. unfold try_except. now rewrite H. Qed.

Lemma run_try_raise {A} (m : M A) h log e log' :
  m log = (Raise e, log') -> try_except m h log = h e log'.
Proof. intros H. unfold try_except. now rewrite H. Qed.

Lemma run_lift {A} (o : outcome A) log : lift o log = (o, log).
Proof. reflexivity. Qed.

Lemma run_ret {A} (a : A) log : (mret a : M A) log = (Ok a, log).
Proof. reflexivity. Qed.

(** ** What a listing returns *)

Lemma envelope_result (remote : list string -> string -> response)
      (endpoint : string) (log : list string) :
  try_except
    (response ← VCenterService._make_request remote endpoint;
     items ← lift (py_get response "value" (VList nil));
     _ ← lift (py_len items);
     mret items)
    (fun _ => mret (VList nil)) log
  = (Ok (envelope_items (remote log endpoint)), (log ++ endpoint :: nil)%list).
Proof.
  unfold try_except, mbind, M_bind, VCenterService._make_request, lift, mret, M_ret,
    envelope_items.
  destruct (remote log endpoint) as [body|reason]; cbn; [|reflexivity].
  destruct body; cbn; try reflexivity.
  destruct (dict_lookup d "value") as [items|]; cbn; [|reflexivity].
  destruct items; reflexivity.
Qed.

Lemma envelope_items_iterable (r : response) : iterable (envelope_items r) = true.
Proof.
  destruct r as [[| | | | | |d]|]; cbn; try reflexivity.
  destruct (dict_lookup d "value") as [v|]; [|reflexivity].
  destruct (iterable v) eqn:E; [exact E|reflexivity].
Qed.

Lemma run_get_resource_pools py_repr remote (cid : value) (log : list string) :
  let endpoint :=
    if truthy cid
    then "vcenter/resource-pool" +:+ "?clusters=" +:+ VCenterService.py_str py_repr cid
    else "vcenter/resource-pool" in
  VCenterService.get_resource_pools py_repr remote cid log
  = (Ok (envelope_items (remote log endpoint)), (log ++ endpoint :: nil)%list).
Proof.
  unfold VCenterService.get_resource_pools.
  destruct (truthy cid); apply envelope_result.
Qed.

(** ** C1: a failing cluster endpoint *)

Lemma get_clusters_when_down reason others log :
  VCenterController.get_clusters (cluster_endpoint_down reason others) log
  = (Ok nil, (log ++ "vcenter/cluster" :: nil)%list).
Proof. reflexivity. Qed.

(** C1 (the code departs from the claim).  When the cluster endpoint fails,
    whatever the reason and whatever the other endpoints answer, the
    controller's cluster listing is empty, but the connectivity test still
    reports [True] and the status snapshot is the "Connected" one, with a
    cluster count of 0 and both other counts present: the "Failed" snapshot
    is never produced. *)
Theorem cluster_failure_reported_connected
        (py_repr : value -> string) (reason : string)
        (others : list string -> string -> response)
        (config : VCenterConfig) (log : list string) :
  let remote := cluster_endpoint_down reason others in
  VCenterController.get_clusters remote log
    = (Ok nil, (log ++ "vcenter/cluster" :: nil)%list)
  /\ VCenterService.test_connection remote log
    = (Ok true, (log ++ "vcenter/cluster" :: nil)%list)
  /\ exists n_pools n_vms log',
      VCenterController.get_vcenter_status py_repr remote config log
      = (Ok (VDict (("host", host config)
                    :: ("clusters_count", VInt 0)
                    :: ("resource_pools_count", VInt n_pools)
                    :: ("vms_count", VInt n_vms)
                    :: ("connection_status", VStr "Connected") :: nil)), log').
Proof.
  intros remote. split; [reflexivity|]. split; [apply test_connection_always_true|].
  unfold VCenterController.get_vcenter_status.
  set (l1 := (log ++ "vcenter/cluster" :: nil)%list).
  set (l2 := (l1 ++ "vcenter/cluster" :: nil)%list).
  destruct (service_get_resource_pools_total py_repr remote VNone l2)
    as (pools & ep1 & Hpools & Hip & _).
  destruct (service_get_virtual_machines_total py_repr remote VNone VNone
              (l2 ++ ep1 :: nil)%list) as (vms & ep2 & Hvms & Hiv).
  exists (Z.of_nat (length (iter_items pools))),
         (Z.of_nat (length (iter_items vms))),
         ((l2 ++ ep1 :: nil) ++ ep2 :: nil)%list.
  apply run_try_ok.
  erewrite run_bind_ok by apply test_connection_always_true. cbn [negb].
  erewrite run_bind_ok by apply get_clusters_when_down.
  erewrite run_bind_ok by exact Hpools.
  erewrite run_bind_ok by exact Hvms.
  unfold py_len. rewrite Hip, Hiv.
  reflexivity.
Qed.

(** ** C2: the cluster list formatter *)

(** C2 (the code departs from the claim).  On the empty list
    [format_cluster_list] returns "No clusters found", which is not the
    sentence "No clusters found in vCenter" that the [list_clusters] tool
    returns for an empty listing; on the single cluster Prod/c1 it returns
    the header line and one entry line, each ended by a newline. *)
Theorem format_cluster_list_texts (py_repr : value -> string) (log : list string) :
  MCPToolsView.format_cluster_list py_repr nil = "No clusters found"
  /\ MCPToolsView.format_cluster_list py_repr nil <> "No clusters found in vCenter"
  /\ MCPToolsView.list_clusters py_repr (fun _ _ => envelope nil) log
     = (Ok "No clusters found in vCenter", (log ++ "vcenter/cluster" :: nil)%list)
  /\ MCPToolsView.format_cluster_list py_repr
       (mkCluster (VStr "c1") (VStr "Prod") VNone :: nil)
     = "Clusters in vCenter:" +:+ nl +:+ "- Prod (ID: c1)" +:+ nl.
Proof.
  split; [reflexivity|]. split; [discriminate|]. split; reflexivity.
Qed.

(** ** C7: cluster lookup by name *)

Lemma eq_str_true (v : value) (q : string) : eq_str v q = true <-> v = VStr q.
Proof.
  destruct v; cbn; try (split; [discriminate|intros H; discriminate H]).
  rewrite String.eqb_eq. split; [now intros ->|now intros [= ->]].
Qed.

Lemma eq_str_false (v : value) (q : string) : eq_str v q = false <-> v <> VStr q.
Proof.
  rewrite <- eq_str_true. destruct (eq_str v q); split; congruence.
Qed.

Lemma scan_clusters_first_match (clusters : list Cluster) (q : string) :
  match VCenterController.scan_clusters clusters q with
  | Some c =>
      exists before after,
        clusters = (before ++ c :: after)%list
        /\ name c = VStr q
        /\ Forall (fun c' => name c' <> VStr q) before
  | None => Forall (fun c' => name c' <> VStr q) clusters
  end.
Proof.
  induction clusters as [|c rest IH]; cbn.
  - constructor.
  - destruct (eq_str (name c) q) eqn:E.
    + exists nil, rest. split; [reflexivity|]. split; [now apply eq_str_true|constructor].
    + apply eq_str_false in E.
      destruct (VCenterController.scan_clusters rest q) as [c0|].
      * destruct IH as (before & after & -> & Hn & Hb).
        exists (c :: before), after. split; [reflexivity|].
        split; [exact Hn|now constructor].
      * now constructor.
Qed.

(** C7.  [get_cluster_by_name] scans the listing that [get_clusters]
    returns, in order, comparing each cluster's name with the query by
    string equality: it returns the first cluster whose name is the query
    (no cluster before it has that name), and [None] when no cluster's name
    is the query.  Equality is case-sensitive: a listing holding "Prod" has
    no match for "prod". *)
Theorem get_cluster_by_name_first_match
        (remote : list string -> string -> response) (q : string)
        (log log' : list string) (clusters : list Cluster) :
  VCenterController.get_clusters remote log = (Ok clusters, log') ->
  exists r,
    VCenterController.get_cluster_by_name remote q log = (Ok r, log')
    /\ match r with
       | Some c =>
           exists before after,
             clusters = (before ++ c :: after)%list
             /\ name c = VStr q
             /\ Forall (fun c' => name c' <> VStr q) before
       | None => Forall (fun c' => name c' <> VStr q) clusters
       end
    /\ VCenterController.scan_clusters
         (mkCluster (VStr "c1") (VStr "Prod") VNone :: nil) "prod" = None.
Proof.
  intros H. exists (VCenterController.scan_clusters clusters q).
  split; [|split].
  - unfold VCenterController.get_cluster_by_name.
    erewrite run_bind_ok by exact H. reflexivity.
  - apply scan_clusters_first_match.
  - reflexivity.
Qed.

Lemma get_cluster_by_name_first_match_witness :
  exists r,
    VCenterController.get_cluster_by_name sample_remote "prod" nil
    = (Ok r, "vcenter/cluster" :: nil)
    /\ r = None.
Proof.
  destruct (get_cluster_by_name_first_match sample_remote "prod" nil
              ("vcenter/cluster" :: nil)
              (mkCluster (VStr "c1") (VStr "Prod") VNone
               :: mkCluster (VStr "c2") (VStr "Test") VNone :: nil)
              eq_refl) as (r & Hr & _).
  exists r. split; [exact Hr|].
  vm_compute in Hr. now injection Hr as <-.
Defined.

(** ** C10 and C6: resource pool lookup by name *)





Lemma scan_resource_pools_no_match (raw : list value) (q : string) :
  Forall (fun r => raw_name_matches r q = false) raw ->
  forall rp, VCenterController.scan_resource_pools raw q <> Ok (Some rp).
Proof.
  induction 1 as [|r rest Hr _ IH]; intros rp; cbn; [discriminate|].
  destruct r; cbn; try discriminate.
  cbn in Hr. destruct (dict_lookup d "name") as [v|]; cbn.
  - rewrite Hr. apply IH.
  - apply IH.
Qed.

(** C6.  When no record of the unfiltered resource-pool listing carries the
    queried name, [get_vms_in_resource_pool] returns the empty list and the
    only request it issues is the resource-pool listing of the name
    resolution: no VM listing is requested. *)
Theorem no_vm_fetch_for_unknown_pool
        (py_repr : value -> string) (remote : list string -> string -> response)
        (q : string) (log log1 : list string) (listing : value) :
  VCenterService.get_resource_pools py_repr remote VNone log = (Ok listing, log1) ->
  Forall (fun r => raw_name_matches r q = false) (iter_items listing) ->
  VCenterController.get_vms_in_resource_pool py_repr remote q log = (Ok nil, log1)
  /\ log1 = (log ++ "vcenter/resource-pool" :: nil)%list.
Proof.
  intros Hl Hno.
  destruct (service_get_resource_pools_total py_repr remote VNone log)
    as (v & ep & Hv & Hi & Hep).
  rewrite Hl in Hv. injection Hv as <- ->. rewrite (Hep eq_refl). split; [|reflexivity].
  rewrite (Hep eq_refl) in Hl.
  assert (Hby : VCenterController.get_resource_pool_by_name py_repr remote q log
                = (VCenterController.scan_resource_pools (iter_items listing) q,
                   (log ++ "vcenter/resource-pool" :: nil)%list)).
  { unfold VCenterController.get_resource_pool_by_name.
    erewrite run_bind_ok by exact Hl.
    unfold py_iter. rewrite Hi.
    erewrite run_bind_ok by apply run_lift. apply run_lift. }
  unfold VCenterController.get_vms_in_resource_pool.
  pose proof (scan_resource_pools_no_match _ _ Hno) as Hnone.
  destruct (VCenterController.scan_resource_pools (iter_items listing) q)
    as [[rp|]|e] eqn:E.
  - now destruct (Hnone rp).
  - apply run_try_ok. erewrite run_bind_ok by exact Hby. reflexivity.
  - erewrite run_try_raise; [reflexivity|].
    erewrite run_bind_raise by exact Hby. reflexivity.
Qed.

Lemma no_vm_fetch_for_unknown_pool_witness :
  VCenterController.get_vms_in_resource_pool sample_repr sample_remote "Silver" nil
  = (Ok nil, "vcenter/resource-pool" :: nil).
Proof.
  refine (proj1 (no_vm_fetch_for_unknown_pool sample_repr sample_remote "Silver" nil
                   ("vcenter/resource-pool" :: nil)
                   (VList (VDict (("resource_pool", VStr "rp1")
                                  :: ("name", VStr "Gold") :: nil)
                           :: VDict (("resource_pool", VStr "rp2") :: nil) :: nil))
                   eq_refl _)).
  repeat constructor.
Defined.

(** ** C3: the host of the resolved configuration *)

Lemma rstrip_slash_spec (s : string) :
  exists n, s = rstrip_slash s +:+ slashes n
            /\ ends_with_slash (rstrip_slash s) = false.
Proof.
  induction s as [|c s' (n & Hs & He)]; [now exists O|].
  cbn [rstrip_slash].
  destruct (rstrip_slash s') as [|c' r] eqn:Hr.
  - destruct (Ascii.eqb c "/") eqn:Hc.
    + apply Ascii.eqb_eq in Hc as ->. exists (S n). cbn. now rewrite Hs at 1.
    + exists n. cbn. rewrite Hc. now rewrite Hs at 1.
  - exists n. split; [cbn; now rewrite Hs at 1|exact He].
Qed.

Lemma get_vcenter_config_inv msd jl env cfg :
  ConfigManager.get_vcenter_config msd jl env = Ok cfg ->
  exists creds t,
    ConfigManager.get_vcenter_credentials jl env = Ok creds
    /\ ConfigManager.resolve_timeout msd env = Ok t
    /\ cfg = mkVCenterConfig (cred_host creds) (cred_username creds)
                             (cred_password creds)
                             (ConfigManager.resolve_verify_ssl env) t.
Proof.
  unfold ConfigManager.get_vcenter_config, mbind, outcome_bind, obind.
  destruct (ConfigManager.get_vcenter_credentials jl env) as [creds|]; [|discriminate].
  destruct (ConfigManager.resolve_timeout msd env) as [t|]; [|discriminate].
  intros [= <-]. now exists creds, t.
Qed.

(** C3 (as amended).  A resolved configuration carries the host of the
    resolved credentials unchanged; trailing slashes are removed only in the
    API client's own host, which the client's constructor computes from a
    string host by dropping every trailing slash. *)
Theorem config_host_verbatim
        (msd : nat) (jl : string -> option value) (env : gmap string string)
        (cfg : VCenterConfig) (h : string) :
  ConfigManager.get_vcenter_config msd jl env = Ok cfg ->
  host cfg = VStr h ->
  (exists creds, ConfigManager.get_vcenter_credentials jl env = Ok creds
                 /\ cred_host creds = VStr h)
  /\ exists svc n,
      VCenterService.__init__ cfg = Ok svc
      /\ VCenterService.config svc = cfg
      /\ h = VCenterService.host_ svc +:+ slashes n
      /\ ends_with_slash (VCenterService.host_ svc) = false.
Proof.
  intros Hcfg Hh. apply get_vcenter_config_inv in Hcfg as (creds & t & Hc & _ & ->).
  cbn in Hh. split; [now exists creds|].
  destruct (rstrip_slash_spec h) as (n & Hn & He).
  exists (VCenterService.mk
            (mkVCenterConfig (cred_host creds) (cred_username creds)
               (cred_password creds) (ConfigManager.resolve_verify_ssl env) t)
            (rstrip_slash h)), n.
  unfold VCenterService.__init__. cbn. rewrite Hh. cbn. auto.
Qed.

Lemma config_host_verbatim_witness :
  exists svc,
    VCenterService.__init__
      (mkVCenterConfig (VStr "https://vc/") (VStr "admin") (VStr "secret") true 30)
    = Ok svc
    /\ VCenterService.host_ svc = "https://vc".
Proof.
  destruct (config_host_verbatim 4300 no_json (env_of env_credentials)
              (mkVCenterConfig (VStr "https://vc/") (VStr "admin") (VStr "secret")
                               true 30)
              "https://vc/" eq_refl eq_refl) as (_ & svc & n & Hs & _).
  exists svc. split; [exact Hs|].
  vm_compute in Hs. now injection Hs as <-.
Defined.

(** C3, counterexample: with VCENTER_HOST="https://vc/" the resolved
    configuration's host is "https://vc/", slash included. *)
Lemma config_host_keeps_slash :
  exists cfg,
    ConfigManager.get_vcenter_config 4300 no_json (env_of env_credentials) = Ok cfg
    /\ host cfg = VStr "https://vc/"
    /\ host cfg <> VStr "https://vc".
Proof.
  eexists. split; [vm_compute; reflexivity|]. split; [reflexivity|discriminate].
Qed.

(** ** C4: the certificate verification flag *)

Lemma string_eqb_cons a s b t :
  String.eqb (String a s) (String b t) = Ascii.eqb a b && String.eqb s t.
Proof.
  cbn. destruct (Ascii.eqb a b); reflexivity.
Qed.

Ltac by_cases_on_char c :=
  destruct c as [[] [] [] [] [] [] [] []]; reflexivity.

Lemma lower_char_f c : Ascii.eqb (lower_char c) "f" = either c "f" "F".
Proof. by_cases_on_char c. Qed.
Lemma lower_char_a c : Ascii.eqb (lower_char c) "a" = either c "a" "A".
Proof. by_cases_on_char c. Qed.
Lemma lower_char_l c : Ascii.eqb (lower_char c) "l" = either c "l" "L".
Proof. by_cases_on_char c. Qed.
Lemma lower_char_s c : Ascii.eqb (lower_char c) "s" = either c "s" "S".
Proof. by_cases_on_char c. Qed.
Lemma lower_char_e c : Ascii.eqb (lower_char c) "e" = either c "e" "E".
Proof. by_cases_on_char c. Qed.

Lemma lower_is_false (s : string) :
  String.eqb (lower s) "false" = spelled_false s.
Proof.
  destruct s as [|c1 [|c2 [|c3 [|c4 [|c5 [|c6 s]]]]]];
    cbn [lower spelled_false];
    rewrite ?string_eqb_cons,
            ?lower_char_f, ?lower_char_a, ?lower_char_l, ?lower_char_s, ?lower_char_e;
    cbn [String.eqb];
    rewrite ?andb_false_r, ?andb_true_r, ?andb_assoc; reflexivity.
Qed.

(** C4 (as amended).  The resolved verify flag is false exactly when
    VCENTER_VERIFY_SSL is set to the word "false" in any mix of upper and
    lower case (the value is lower-cased before the comparison); it is true
    for every other value and when the variable is unset. *)
Theorem verify_ssl_false_iff
        (msd : nat) (jl : string -> option value) (env : gmap string string)
        (cfg : VCenterConfig) :
  ConfigManager.get_vcenter_config msd jl env = Ok cfg ->
  (verify_ssl cfg = false
   <-> exists s, env !! "VCENTER_VERIFY_SSL" = Some s /\ spelled_false s = true).
Proof.
  intros Hcfg. apply get_vcenter_config_inv in Hcfg as (creds & t & _ & _ & ->).
  cbn [verify_ssl]. unfold ConfigManager.resolve_verify_ssl, getenv_default.
  rewrite lower_is_false.
  destruct (env !! "VCENTER_VERIFY_SSL") as [s|]; cbn.
  - split.
    + intros H. exists s. split; [reflexivity|]. now destruct (spelled_false s).
    + intros (s' & [= <-] & ->). reflexivity.
  - split; [discriminate|]. now intros (s' & [=] & _).
Qed.

Lemma verify_ssl_false_iff_witness :
  verify_ssl (mkVCenterConfig (VStr "https://vc/") (VStr "admin") (VStr "secret")
                              false 30) = false
  <-> exists s, env_of env_verify_capitalised !! "VCENTER_VERIFY_SSL" = Some s
                /\ spelled_false s = true.
Proof.
  apply (verify_ssl_false_iff 4300 no_json (env_of env_verify_capitalised)).
  vm_compute. reflexivity.
Defined.

(** C4, counterexample: the value "False" is not the value "false", and the
    resolved flag is false all the same. *)
Lemma verify_ssl_false_for_capitalised :
  "False" <> "false"
  /\ env_of env_verify_capitalised !! "VCENTER_VERIFY_SSL" = Some "False"
  /\ exists cfg,
      ConfigManager.get_vcenter_config 4300 no_json (env_of env_verify_capitalised)
      = Ok cfg
      /\ verify_ssl cfg = false.
Proof.
  split; [discriminate|]. split; [vm_compute; reflexivity|].
  eexists. split; [vm_compute; reflexivity|reflexivity].
Qed.

(** ** C8: credentials from the environment *)

Lemma truthy_nonempty (s : string) : s <> "" -> truthy (VStr s) = true.
Proof.
  intros H. cbn. destruct (String.eqb s "") eqn:E; [|reflexivity].
  now apply String.eqb_eq in E.
Qed.

Lemma py_int_30 (msd : nat) : py_int msd "30" = Ok 30.
Proof. reflexivity. Qed.

(** ** C5: the timeout *)

Section IntFacts.

Variable msd : nat.

Lemma py_int_only_value_error (s : string) (e : exn) :
  py_int msd s = Raise e -> exn_cls e = ValueError.
Proof.
  unfold py_int.
  destruct (match skip_spaces s with
            | String "+" s' => int_body msd s'
            | String "-" s' => option_map Z.opp (int_body msd s')
            | s' => int_body msd s'
            end); [discriminate|].
  now intros [= <-].
Qed.









End IntFacts.

Lemma resolve_timeout_value (msd : nat) (env : gmap string string) :
  ConfigManager.resolve_timeout msd env
  = Ok match timeout_variable env with
       | None => 30
       | Some s => match py_int msd s with Ok z => z | Raise _ => 30 end
       end.
Proof.
  unfold ConfigManager.resolve_timeout, getenv_default, timeout_variable.
  destruct (env !! "VCENTER_TIMEOUT") as [s|]; [|reflexivity].
  change (default "30" (Some s)) with s.
  destruct (py_int msd s) as [z|e] eqn:E; [reflexivity|].
  cbn. now rewrite (py_int_only_value_error msd s e E).
Qed.




(** ** C8: the environment takes priority *)

(** C8.  When VCENTER_HOST, VCENTER_USERNAME and VCENTER_PASSWORD are all
    set and non-empty, the credentials are these three values and the
    resolved configuration is built from exactly them, whatever the service
    binding variable holds, however it decodes and whatever the optional
    variables hold: the verify flag and the timeout are those the optional
    variables resolve to, and with the optional variables unset they are
    true and 30. *)
Theorem env_credentials_take_priority
        (msd : nat) (jl : string -> option value) (env : gmap string string)
        (h u p : string) :
  env !! "VCENTER_HOST" = Some h ->
  env !! "VCENTER_USERNAME" = Some u ->
  env !! "VCENTER_PASSWORD" = Some p ->
  h <> "" -> u <> "" -> p <> "" ->
  ConfigManager.get_vcenter_credentials jl env
    = Ok (mkVCenterCredentials (VStr h) (VStr u) (VStr p))
  /\ ConfigManager.get_vcenter_config msd jl env
    = Ok (mkVCenterConfig (VStr h) (VStr u) (VStr p)
            (ConfigManager.resolve_verify_ssl env)
            match timeout_variable env with
            | None => 30
            | Some s => match py_int msd s with Ok z => z | Raise _ => 30 end
            end)
  /\ (env !! "VCENTER_VERIFY_SSL" = None ->
      env !! "VCENTER_TIMEOUT" = None ->
      ConfigManager.get_vcenter_config msd jl env
      = Ok (mkVCenterConfig (VStr h) (VStr u) (VStr p) true 30)).
Proof.
  intros Hh Hu Hp Nh Nu Np.
  assert (Hc : ConfigManager.get_vcenter_credentials jl env
               = Ok (mkVCenterCredentials (VStr h) (VStr u) (VStr p))).
  { unfold ConfigManager.get_vcenter_credentials,
      ConfigManager._get_credentials_from_env, getenv.
    rewrite Hh, Hu, Hp, !truthy_nonempty by assumption. reflexivity. }
  assert (Hg : ConfigManager.get_vcenter_config msd jl env
               = Ok (mkVCenterConfig (VStr h) (VStr u) (VStr p)
                       (ConfigManager.resolve_verify_ssl env)
                       match timeout_variable env with
                       | None => 30
                       | Some s => match py_int msd s with Ok z => z | Raise _ => 30 end
                       end)).
  { unfold ConfigManager.get_vcenter_config. rewrite Hc.
    cbn [mbind outcome_bind obind]. now rewrite resolve_timeout_value. }
  split; [exact Hc|]. split; [exact Hg|].
  intros Hv Ht. rewrite Hg.
  unfold ConfigManager.resolve_verify_ssl, getenv_default, timeout_variable.
  rewrite Hv, Ht. reflexivity.
Qed.

Lemma env_credentials_take_priority_witness :
  ConfigManager.get_vcenter_credentials sample_json (env_of env_all_set)
  = Ok (mkVCenterCredentials (VStr "https://vc/") (VStr "admin") (VStr "secret"))
  /\ ConfigManager.get_vcenter_config 4300 sample_json (env_of env_all_set)
     = Ok (mkVCenterConfig (VStr "https://vc/") (VStr "admin") (VStr "secret")
             false 45).
Proof.
  destruct (env_credentials_take_priority 4300 sample_json (env_of env_all_set)
              "https://vc/" "admin" "secret" eq_refl eq_refl eq_refl)
    as (H1 & H2 & _); [discriminate..|].
  split; [exact H1|exact H2].
Defined.

(** ** C9: credentials from the service binding *)

Section BindingFacts.

Variable jl : string -> option value.

Lemma is_vcenter_service_shaped (v : value) :
  descriptor_shaped v = true ->
  ConfigManager._is_vcenter_service v = Ok (keyword_matching v).
Proof.
  destruct v as [| | | | |l|d]; try discriminate.
  unfold descriptor_shaped, keyword_matching, ConfigManager._is_vcenter_service,
    text_field, py_get.
  destruct (dict_lookup d "name") as [[| | | |n| |]|]; try discriminate;
    destruct (dict_lookup d "label") as [[| | | |l| |]|]; try discriminate;
    intros _; cbn; unfold mentions_keyword; cbn;
    repeat match goal with
           | |- context [contains ?k ?s] =>
               let b := fresh "b" in
               generalize (contains k s); intros b
           end;
    f_equal;
    repeat match goal with b : bool |- _ => destruct b end; reflexivity.
Qed.

Lemma scan_service_list_shaped (l : list value) :
  forallb descriptor_shaped l = true ->
  ConfigManager.scan_service_list l = Ok (first_usable l).
Proof.
  induction l as [|v rest IH]; [reflexivity|].
  cbn [forallb]. intros [Hv Hrest]%andb_prop.
  cbn [ConfigManager.scan_service_list first_usable].
  rewrite (is_vcenter_service_shaped v Hv). cbn [mbind outcome_bind obind].
  destruct (keyword_matching v); [|now apply IH].
  destruct v as [| | | | | |d]; try discriminate.
  unfold descriptor_shaped in Hv. unfold usable_credentials. cbn [py_get].
  destruct (text_field d "name"); [|discriminate].
  destruct (text_field d "label"); [|discriminate].
  destruct (dict_lookup d "credentials") as [[| | | | | |c]|]; try discriminate;
    cbn [default from_option id mbind outcome_bind obind py_get];
    [|cbn; now apply IH].
  destruct (dict_lookup c "host") as [h|], (dict_lookup c "username") as [u|],
           (dict_lookup c "password") as [p|];
    cbn [default from_option id mbind outcome_bind obind truthy andb];
    rewrite ?andb_false_r; try now apply IH.
  destruct (truthy h && truthy u && truthy p); [reflexivity|now apply IH].
Qed.

Lemma first_usable_app (l1 l2 : list value) :
  first_usable (l1 ++ l2)
  = match first_usable l1 with
    | Some c => Some c
    | None => first_usable l2
    end.
Proof.
  induction l1 as [|d rest IH]; [reflexivity|].
  cbn [app first_usable].
  destruct (if keyword_matching d then usable_credentials d else None);
    [reflexivity|exact IH].
Qed.

Lemma scan_services_shaped (buckets : list (string * value)) :
  forallb bucket_shaped buckets = true ->
  ConfigManager.scan_services buckets
  = Ok (first_usable (concat (map bucket_descriptors buckets))).
Proof.
  induction buckets as [|[service_type service_list] rest IH]; [reflexivity|].
  cbn [forallb]. intros [Hb Hrest]%andb_prop.
  unfold bucket_shaped in Hb. cbn [snd] in Hb.
  destruct service_list as [| | | | |l|]; try discriminate.
  cbn [ConfigManager.scan_services map concat bucket_descriptors snd].
  rewrite first_usable_app.
  change (py_iter (VList l)) with (Ok l). cbn [mbind outcome_bind obind].
  rewrite (scan_service_list_shaped l Hb).
  destruct (first_usable l); [reflexivity|now apply IH].
Qed.

Lemma first_usable_split (l : list value) :
  match first_usable l with
  | Some c =>
      exists before d after,
        l = (before ++ d :: after)%list
        /\ keyword_matching d = true
        /\ usable_credentials d = Some c
        /\ Forall unusable before
  | None => Forall unusable l
  end.
Proof.
  induction l as [|d rest IH]; cbn [first_usable]; [constructor|].
  destruct (keyword_matching d) eqn:Hk.
  - destruct (usable_credentials d) as [c|] eqn:Hu.
    + exists nil, d, rest. repeat split; [assumption..|constructor].
    + destruct (first_usable rest) as [c|].
      * destruct IH as (before & d' & after & -> & Hk' & Hu' & Hb).
        exists (d :: before), d', after.
        repeat split; [assumption..|]. constructor; [now right|exact Hb].
      * constructor; [now right|exact IH].
  - destruct (first_usable rest) as [c|].
    + destruct IH as (before & d' & after & -> & Hk' & Hu' & Hb).
      exists (d :: before), d', after.
      repeat split; [assumption..|]. constructor; [now left|exact Hb].
    + constructor; [now left|exact IH].
Qed.

Lemma binding_resolution_shaped (env : gmap string string) (doc : string)
      (services : value) :
  env !! "VCAP_SERVICES" = Some doc ->
  doc <> "" ->
  jl doc = Some services ->
  well_shaped services = true ->
  ConfigManager._get_credentials_from_service_binding jl env
  = first_usable (descriptors services).
Proof.
  intros Henv Hdoc Hjl Hshape.
  unfold ConfigManager._get_credentials_from_service_binding, getenv.
  rewrite Henv, (truthy_nonempty doc Hdoc). cbn [negb].
  unfold ConfigManager.loads. rewrite Hjl. cbn [mbind outcome_bind obind].
  destruct services as [| | | | | |buckets]; try discriminate.
  cbn [py_items mbind outcome_bind obind descriptors].
  now rewrite (scan_services_shaped buckets Hshape).
Qed.

End BindingFacts.

(** C9 (as amended).  For a binding document of the documented shape, the
    descriptors of all service types are scanned in iteration order; a
    keyword-matching descriptor whose credentials lack host, username or
    password, or hold an empty (falsy) value for one of them, is passed
    over, and so is every descriptor that matches no keyword.  The result is
    the credentials of the first keyword-matching descriptor whose three
    credential fields are all present and non-empty, and [None] exactly when
    there is no such descriptor. *)
Theorem binding_first_usable_descriptor
        (jl : string -> option value) (env : gmap string string)
        (doc : string) (services : value) :
  env !! "VCAP_SERVICES" = Some doc ->
  doc <> "" ->
  jl doc = Some services ->
  well_shaped services = true ->
  match ConfigManager._get_credentials_from_service_binding jl env with
  | Some c =>
      exists before d after,
        descriptors services = (before ++ d :: after)%list
        /\ keyword_matching d = true
        /\ usable_credentials d = Some c
        /\ Forall unusable before
  | None => Forall unusable (descriptors services)
  end.
Proof.
  intros Henv Hdoc Hjl Hshape.
  rewrite (binding_resolution_shaped jl env doc services Henv Hdoc Hjl Hshape).
  apply first_usable_split.
Qed.

Lemma binding_first_usable_descriptor_witness :
  match ConfigManager._get_credentials_from_service_binding sample_json
          (env_of env_binding_only) with
  | Some c =>
      exists before d after,
        descriptors sample_binding = (before ++ d :: after)%list
        /\ keyword_matching d = true
        /\ usable_credentials d = Some c
        /\ Forall unusable before
  | None => Forall unusable (descriptors sample_binding)
  end.
Proof.
  apply (binding_first_usable_descriptor sample_json (env_of env_binding_only)
           "{...}" sample_binding);
    [vm_compute; reflexivity | discriminate | reflexivity | reflexivity].
Defined.

(** C9, counterexample: a keyword-matching descriptor whose credentials hold
    all three fields, the host being the empty string, is not returned: the
    resolution gives [None]. *)
Lemma binding_with_empty_host_is_skipped :
  descriptors binding_empty_host = descriptor_empty_host :: nil
  /\ ConfigManager._is_vcenter_service descriptor_empty_host = Ok true
  /\ (exists c h u p,
        dict_lookup
          (match descriptor_empty_host with VDict d => d | _ => nil end)
          "credentials" = Some (VDict c)
        /\ dict_lookup c "host" = Some h
        /\ dict_lookup c "username" = Some u
        /\ dict_lookup c "password" = Some p)
  /\ ConfigManager._get_credentials_from_service_binding
       (fun _ => Some binding_empty_host) (env_of env_binding_only) = None.
Proof.
  split; [reflexivity|]. split; [reflexivity|]. split.
  - eexists _, _, _, _. repeat split; reflexivity.
  - vm_compute. reflexivity.
Qed.

(** * Further properties of the client, the query layer and the tools *)

(** ** The API client *)

(** X1.  Each of the three listings of the client issues exactly one
    request and never raises: it returns the [value] member of the answered
    JSON object when that is a sized value, and the empty list when the
    request fails, the body is no object, or the member is missing or has no
    length. *)
Theorem service_listings_fail_soft
        (py_repr : value -> string) (remote : list string -> string -> response)
        (cluster_id pool_id : value) (log : list string) :
  VCenterService.get_clusters remote log
    = (Ok (envelope_items (remote log "vcenter/cluster")),
       (log ++ "vcenter/cluster" :: nil)%list)
  /\ (exists endpoint,
        VCenterService.get_resource_pools py_repr remote cluster_id log
        = (Ok (envelope_items (remote log endpoint)), (log ++ endpoint :: nil)%list))
  /\ (exists endpoint,
        VCenterService.get_virtual_machines py_repr remote cluster_id pool_id log
        = (Ok (envelope_items (remote log endpoint)), (log ++ endpoint :: nil)%list)).
Proof.
  split; [apply envelope_result|]. split.
  - unfold VCenterService.get_resource_pools.
    destruct (truthy cluster_id); eexists; apply envelope_result.
  - unfold VCenterService.get_virtual_machines.
    eexists; apply envelope_result.
Qed.

(** X2.  The optional filters of the listings become query parameters only
    when they are truthy: a missing, [None] or empty identifier requests the
    unfiltered listing; with both filters the VM listing sends the cluster
    first and the resource pool second, joined by an ampersand. *)
Theorem listing_endpoints
        (py_repr : value -> string) (remote : list string -> string -> response)
        (c r : string) (log : list string) :
  c <> "" -> r <> "" ->
  snd (VCenterService.get_virtual_machines py_repr remote (VStr c) (VStr r) log)
    = (log ++ ("vcenter/vm?clusters=" +:+ c +:+ "&resource_pools=" +:+ r) :: nil)%list
  /\ snd (VCenterService.get_virtual_machines py_repr remote (VStr c) VNone log)
    = (log ++ ("vcenter/vm?clusters=" +:+ c) :: nil)%list
  /\ snd (VCenterService.get_virtual_machines py_repr remote (VStr "") (VStr r) log)
    = (log ++ ("vcenter/vm?resource_pools=" +:+ r) :: nil)%list
  /\ snd (VCenterService.get_virtual_machines py_repr remote VNone (VStr "") log)
    = (log ++ "vcenter/vm" :: nil)%list
  /\ snd (VCenterService.get_resource_pools py_repr remote (VStr c) log)
    = (log ++ ("vcenter/resource-pool?clusters=" +:+ c) :: nil)%list
  /\ snd (VCenterService.get_resource_pools py_repr remote (VStr "") log)
    = (log ++ "vcenter/resource-pool" :: nil)%list.
Proof.
  intros Hc Hr.
  unfold VCenterService.get_virtual_machines, VCenterService.get_resource_pools.
  rewrite !(truthy_nonempty c Hc), !(truthy_nonempty r Hr).
  cbn [truthy String.eqb negb app join VCenterService.py_str].
  rewrite !envelope_result. cbn [snd].
  repeat split; reflexivity.
Qed.

Lemma listing_endpoints_witness :
  snd (VCenterService.get_virtual_machines sample_repr sample_remote
         (VStr "c1") (VStr "rp1") nil)
  = "vcenter/vm?clusters=c1&resource_pools=rp1" :: nil.
Proof.
  refine (proj1 (listing_endpoints sample_repr sample_remote "c1" "rp1" nil _ _));
    discriminate.
Defined.

(** ** The query layer *)

Lemma mapM_to_cluster_ok (raw : list value) :
  forallb is_dict raw = true ->
  mapM VCenterController.to_cluster raw = Ok (map cluster_of raw).
Proof.
  induction raw as [|r rest IH]; [reflexivity|].
  cbn [forallb map mapM]. intros [Hr Hrest]%andb_prop.
  destruct r; try discriminate. cbn. now rewrite (IH Hrest).
Qed.

Lemma mapM_to_cluster_raises (raw : list value) :
  forallb is_dict raw = false ->
  exists e, mapM VCenterController.to_cluster raw = Raise e.
Proof.
  induction raw as [|r rest IH]; [discriminate|].
  cbn [forallb mapM]. destruct r; cbn; try (intros _; eexists; reflexivity).
  intros H. destruct (IH H) as (e & ->). eexists; reflexivity.
Qed.

Lemma get_clusters_result
      (remote : list string -> string -> response) (log : list string) :
  let raw := iter_items (envelope_items (remote log "vcenter/cluster")) in
  VCenterController.get_clusters remote log
  = (Ok (if forallb is_dict raw then map cluster_of raw else nil),
     (log ++ "vcenter/cluster" :: nil)%list).
Proof.
  intros raw. unfold VCenterController.get_clusters.
  destruct (service_get_clusters_total remote log) as (v & Hv & Hi).
  pose proof (envelope_result remote "vcenter/cluster" log) as He.
  change (VCenterService.get_clusters remote log
          = (Ok (envelope_items (remote log "vcenter/cluster")),
             (log ++ "vcenter/cluster" :: nil)%list)) in He.
  rewrite Hv in He. injection He as ->. fold raw.
  destruct (forallb is_dict raw) eqn:Hd.
  - apply run_try_ok. erewrite run_bind_ok by exact Hv.
    unfold py_iter. rewrite Hi. erewrite run_bind_ok by apply run_lift.
    rewrite run_lift. fold raw. now rewrite (mapM_to_cluster_ok raw Hd).
  - destruct (mapM_to_cluster_raises raw Hd) as (e & He).
    erewrite run_try_raise; [reflexivity|].
    erewrite run_bind_ok by exact Hv.
    unfold py_iter. rewrite Hi. erewrite run_bind_ok by apply run_lift.
    rewrite run_lift. fold raw. now rewrite He.
Qed.

(** X3.  The controller's cluster listing is all or nothing: when every raw
    record is an object it returns one cluster per record, in order, with
    "Unknown" for a missing identifier or name; when a single record is not
    an object it returns the empty list. *)
Theorem get_clusters_all_or_nothing
        (remote : list string -> string -> response) (log : list string)
        (raw : list value) :
  iter_items (envelope_items (remote log "vcenter/cluster")) = raw ->
  (forallb is_dict raw = true ->
   VCenterController.get_clusters remote log
   = (Ok (map cluster_of raw), (log ++ "vcenter/cluster" :: nil)%list))
  /\ (forallb is_dict raw = false ->
      VCenterController.get_clusters remote log
      = (Ok nil, (log ++ "vcenter/cluster" :: nil)%list)).
Proof.
  intros <-. pose proof (get_clusters_result remote log) as H. cbv zeta in H.
  split; intros Hd; now rewrite Hd in H.
Qed.

Lemma get_clusters_all_or_nothing_witness :
  VCenterController.get_clusters
    (fun _ _ => envelope (VDict (("name", VStr "Prod") :: nil)
                          :: VStr "stray" :: nil)) nil
  = (Ok nil, "vcenter/cluster" :: nil).
Proof.
  exact (proj2 (get_clusters_all_or_nothing
                  (fun _ _ => envelope (VDict (("name", VStr "Prod") :: nil)
                                        :: VStr "stray" :: nil)) nil
                  (VDict (("name", VStr "Prod") :: nil) :: VStr "stray" :: nil)
                  eq_refl) eq_refl).
Defined.

Lemma scan_clusters_none (clusters : list Cluster) (q : string) :
  Forall (fun c => name c <> VStr q) clusters ->
  VCenterController.scan_clusters clusters q = None.
Proof.
  induction 1 as [|c rest Hc _ IH]; [reflexivity|].
  cbn. apply eq_str_false in Hc. now rewrite Hc.
Qed.

(** X4.  For a cluster name that no listed cluster carries, the resource
    pools and the virtual machines of the cluster are both the empty list,
    and the only request issued is the cluster listing: no resource-pool or
    VM request is sent. *)
Theorem unknown_cluster_fetches_nothing
        (py_repr : value -> string) (remote : list string -> string -> response)
        (q : string) (log log' : list string) (clusters : list Cluster) :
  VCenterController.get_clusters remote log = (Ok clusters, log') ->
  Forall (fun c => name c <> VStr q) clusters ->
  VCenterController.get_resource_pools_in_cluster py_repr remote q log
    = (Ok nil, log')
  /\ VCenterController.get_vms_in_cluster py_repr remote q log = (Ok nil, log')
  /\ log' = (log ++ "vcenter/cluster" :: nil)%list.
Proof.
  intros Hc Hno.
  assert (Hby : VCenterController.get_cluster_by_name remote q log = (Ok None, log')).
  { unfold VCenterController.get_cluster_by_name.
    erewrite run_bind_ok by exact Hc. now rewrite (scan_clusters_none _ _ Hno). }
  split; [|split].
  - apply run_try_ok. erewrite run_bind_ok by exact Hby. reflexivity.
  - apply run_try_ok. erewrite run_bind_ok by exact Hby. reflexivity.
  - destruct (get_clusters_total remote log) as (cs & Hcs). congruence.
Qed.

Lemma unknown_cluster_fetches_nothing_witness :
  VCenterController.get_vms_in_cluster sample_repr sample_remote "Staging" nil
  = (Ok nil, "vcenter/cluster" :: nil).
Proof.
  refine (proj1 (proj2 (unknown_cluster_fetches_nothing sample_repr sample_remote
                          "Staging" nil ("vcenter/cluster" :: nil)
                          (mkCluster (VStr "c1") (VStr "Prod") VNone
                           :: mkCluster (VStr "c2") (VStr "Test") VNone :: nil)
                          eq_refl _))).
  repeat constructor; discriminate.
Defined.

Lemma mapM_Forall {A B} (f : A -> outcome B) (P : B -> Prop) :
  (forall a b, f a = Ok b -> P b) ->
  forall l bs, mapM f l = Ok bs -> Forall P bs /\ length bs = length l.
Proof.
  intros Hf. induction l as [|a l IH]; cbn [mapM]; intros bs.
  - intros [= <-]. split; [constructor|reflexivity].
  - destruct (f a) as [b|] eqn:Ea; cbn; [|discriminate].
    destruct (mapM f l) as [bs'|]; cbn; [|discriminate].
    intros [= <-]. destruct (IH bs' eq_refl) as (HF & HL).
    split; [constructor; eauto|cbn; now rewrite HL].
Qed.

Lemma to_resource_pool_owner o raw rp :
  VCenterController.to_resource_pool o raw = Ok rp -> rp_cluster_id rp = o.
Proof. destruct raw; cbn; try discriminate. now intros [= <-]. Qed.

Lemma to_vm_scope a b raw vm :
  VCenterController.to_vm a b raw = Ok vm ->
  vm_cluster_id vm = a /\ vm_resource_pool_id vm = b.
Proof. destruct raw; cbn; try discriminate. now intros [= <-]. Qed.

Lemma run_get_virtual_machines py_repr remote (cid rid : value) (log : list string) :
  exists endpoint,
    VCenterService.get_virtual_machines py_repr remote cid rid log
    = (Ok (envelope_items (remote log endpoint)), (log ++ endpoint :: nil)%list)
    /\ (truthy cid = true -> truthy rid = false ->
        endpoint = "vcenter/vm?clusters=" +:+ VCenterService.py_str py_repr cid)
    /\ (truthy cid = false -> truthy rid = true ->
        endpoint = "vcenter/vm?resource_pools=" +:+ VCenterService.py_str py_repr rid)
    /\ (truthy cid = false -> truthy rid = false -> endpoint = "vcenter/vm").
Proof.
  unfold VCenterService.get_virtual_machines.
  eexists. split; [apply envelope_result|].
  destruct (truthy cid), (truthy rid); repeat split; intros; try discriminate;
    reflexivity.
Qed.

(** Mapping what was fetched: the outcome is a list whose members satisfy
    what the conversion guarantees, or an exception; the log is the
    fetch's. *)
Lemma run_mapping {B} (fetch : M value) (f : value -> outcome B)
      (P : B -> Prop) log v log1 :
  (forall a b, f a = Ok b -> P b) ->
  fetch log = (Ok v, log1) -> iterable v = true ->
  exists r,
    (raw ← fetch; items ← lift (py_iter raw); lift (mapM f items)) log = (r, log1)
    /\ match r with Ok bs => Forall P bs | Raise _ => True end.
Proof.
  intros Hf Hv Hi. exists (mapM f (iter_items v)). split.
  - erewrite run_bind_ok by exact Hv.
    unfold py_iter. rewrite Hi. erewrite run_bind_ok by apply run_lift.
    apply run_lift.
  - destruct (mapM f (iter_items v)) as [bs|e] eqn:E; [|exact I].
    exact (proj1 (mapM_Forall f P Hf _ _ E)).
Qed.

(** [try: ... except: return []] around a body whose members satisfy [P]. *)
Lemma run_try_listing {B} (m : M (list B)) (P : B -> Prop) log r log' :
  m log = (r, log') ->
  match r with Ok bs => Forall P bs | Raise _ => True end ->
  exists bs, try_except m (fun _ => mret nil) log = (Ok bs, log') /\ Forall P bs.
Proof.
  intros Hm HP. destruct r as [bs|e].
  - exists bs. split; [now apply run_try_ok|exact HP].
  - exists nil. split; [|constructor]. erewrite run_try_raise by exact Hm. reflexivity.
Qed.

Lemma get_cluster_by_name_found remote q log log1 clusters c :
  VCenterController.get_clusters remote log = (Ok clusters, log1) ->
  VCenterController.scan_clusters clusters q = Some c ->
  VCenterController.get_cluster_by_name remote q log = (Ok (Some c), log1).
Proof.
  intros Hc Hs. unfold VCenterController.get_cluster_by_name.
  erewrite run_bind_ok by exact Hc. now rewrite run_ret, Hs.
Qed.

(** X5.  The resource pools listed for a cluster that was found are fetched
    with one further request, filtered by that cluster's identifier when the
    identifier is truthy and unfiltered otherwise, and every pool returned
    records that identifier as its cluster; the call does not raise. *)
Theorem cluster_pools_carry_cluster_id
        (py_repr : value -> string) (remote : list string -> string -> response)
        (q : string) (log log1 : list string) (clusters : list Cluster)
        (c : Cluster) :
  VCenterController.get_clusters remote log = (Ok clusters, log1) ->
  VCenterController.scan_clusters clusters q = Some c ->
  exists pools,
    VCenterController.get_resource_pools_in_cluster py_repr remote q log
    = (Ok pools,
       (log1 ++ (if truthy (cluster_id c)
                 then "vcenter/resource-pool?clusters="
                      +:+ VCenterService.py_str py_repr (cluster_id c)
                 else "vcenter/resource-pool") :: nil)%list)
    /\ Forall (fun rp => rp_cluster_id rp = cluster_id c) pools.
Proof.
  intros Hc Hs.
  pose proof (get_cluster_by_name_found remote q log log1 clusters c Hc Hs) as Hby.
  pose proof (run_get_resource_pools py_repr remote (cluster_id c) log1) as Hf.
  cbv zeta in Hf.
  destruct (run_mapping _ (VCenterController.to_resource_pool (cluster_id c))
              (fun rp => rp_cluster_id rp = cluster_id c) _ _ _
              (to_resource_pool_owner (cluster_id c)) Hf
              (envelope_items_iterable _)) as (r & Hr & HP).
  eapply run_try_listing; [|exact HP].
  erewrite run_bind_ok by exact Hby. exact Hr.
Qed.

Lemma cluster_pools_carry_cluster_id_witness :
  exists pools,
    VCenterController.get_resource_pools_in_cluster sample_repr sample_remote
      "Test" nil
    = (Ok pools, "vcenter/cluster" :: "vcenter/resource-pool?clusters=c2" :: nil)
    /\ Forall (fun rp => rp_cluster_id rp = VStr "c2") pools.
Proof.
  exact (cluster_pools_carry_cluster_id sample_repr sample_remote "Test" nil
           ("vcenter/cluster" :: nil)
           (mkCluster (VStr "c1") (VStr "Prod") VNone
            :: mkCluster (VStr "c2") (VStr "Test") VNone :: nil)
           (mkCluster (VStr "c2") (VStr "Test") VNone) eq_refl eq_refl).
Defined.

(** X6.  The virtual machines listed for a cluster that was found are
    fetched with one further request, and every machine returned records the
    cluster's identifier and no resource pool; when the identifier is truthy
    the request is the VM listing filtered by it.  The call does not
    raise. *)
Theorem cluster_vms_carry_cluster_id
        (py_repr : value -> string) (remote : list string -> string -> response)
        (q : string) (log log1 : list string) (clusters : list Cluster)
        (c : Cluster) :
  VCenterController.get_clusters remote log = (Ok clusters, log1) ->
  VCenterController.scan_clusters clusters q = Some c ->
  exists vms endpoint,
    VCenterController.get_vms_in_cluster py_repr remote q log
    = (Ok vms, (log1 ++ endpoint :: nil)%list)
    /\ Forall (fun vm => vm_cluster_id vm = cluster_id c
                         /\ vm_resource_pool_id vm = VNone) vms
    /\ endpoint = (if truthy (cluster_id c)
                   then "vcenter/vm?clusters="
                        +:+ VCenterService.py_str py_repr (cluster_id c)
                   else "vcenter/vm").
Proof.
  intros Hc Hs.
  pose proof (get_cluster_by_name_found remote q log log1 clusters c Hc Hs) as Hby.
  destruct (run_get_virtual_machines py_repr remote (cluster_id c) VNone log1)
    as (endpoint & Hf & Hyes & _ & Hno).
  destruct (run_mapping _ (VCenterController.to_vm (cluster_id c) VNone)
              (fun vm => vm_cluster_id vm = cluster_id c
                         /\ vm_resource_pool_id vm = VNone) _ _ _
              (to_vm_scope (cluster_id c) VNone) Hf
              (envelope_items_iterable _)) as (r & Hr & HP).
  assert (H : exists vms,
             VCenterController.get_vms_in_cluster py_repr remote q log
             = (Ok vms, (log1 ++ endpoint :: nil)%list)
             /\ Forall (fun vm => vm_cluster_id vm = cluster_id c
                                  /\ vm_resource_pool_id vm = VNone) vms).
  { eapply run_try_listing; [|exact HP].
    erewrite run_bind_ok by exact Hby. exact Hr. }
  destruct H as (vms & Hvms & HF).
  exists vms, endpoint. split; [exact Hvms|]. split; [exact HF|].
  destruct (truthy (cluster_id c)); [now apply Hyes|now apply Hno].
Qed.

Lemma cluster_vms_carry_cluster_id_witness :
  exists vms endpoint,
    VCenterController.get_vms_in_cluster sample_repr sample_remote "Prod" nil
    = (Ok vms, "vcenter/cluster" :: endpoint :: nil)
    /\ Forall (fun vm => vm_cluster_id vm = VStr "c1"
                         /\ vm_resource_pool_id vm = VNone) vms
    /\ endpoint = "vcenter/vm?clusters=c1".
Proof.
  exact (cluster_vms_carry_cluster_id sample_repr sample_remote "Prod" nil
           ("vcenter/cluster" :: nil)
           (mkCluster (VStr "c1") (VStr "Prod") VNone
            :: mkCluster (VStr "c2") (VStr "Test") VNone :: nil)
           (mkCluster (VStr "c1") (VStr "Prod") VNone) eq_refl eq_refl).
Defined.

(** X7.  The virtual machines of a resource pool that was found are fetched
    with a second request after the unfiltered pool listing, and every
    machine returned records the pool's identifier and no cluster; when the
    identifier is truthy the request is the VM listing filtered by it.  The
    call does not raise. *)
Theorem pool_vms_carry_pool_id
        (py_repr : value -> string) (remote : list string -> string -> response)
        (q : string) (log log1 : list string) (rp : ResourcePool) :
  VCenterController.get_resource_pool_by_name py_repr remote q log
  = (Ok (Some rp), log1) ->
  exists vms endpoint,
    VCenterController.get_vms_in_resource_pool py_repr remote q log
    = (Ok vms, (log ++ "vcenter/resource-pool" :: endpoint :: nil)%list)
    /\ Forall (fun vm => vm_resource_pool_id vm = resource_pool_id rp
                         /\ vm_cluster_id vm = VNone) vms
    /\ endpoint = (if truthy (resource_pool_id rp)
                   then "vcenter/vm?resource_pools="
                        +:+ VCenterService.py_str py_repr (resource_pool_id rp)
                   else "vcenter/vm").
Proof.
  intros Hby.
  assert (Hlog : log1 = (log ++ "vcenter/resource-pool" :: nil)%list).
  { revert Hby. unfold VCenterController.get_resource_pool_by_name.
    pose proof (run_get_resource_pools py_repr remote VNone log) as Hp.
    cbv zeta in Hp. cbn [truthy] in Hp.
    erewrite run_bind_ok by exact Hp.
    unfold py_iter. rewrite envelope_items_iterable.
    erewrite run_bind_ok by apply run_lift.
    rewrite run_lift. now intros [= _ <-]. }
  destruct (run_get_virtual_machines py_repr remote VNone (resource_pool_id rp) log1)
    as (endpoint & Hf & _ & Hyes & Hno).
  destruct (run_mapping _ (VCenterController.to_vm VNone (resource_pool_id rp))
              (fun vm => vm_resource_pool_id vm = resource_pool_id rp
                         /\ vm_cluster_id vm = VNone) _ _ _
              (fun a b H => let (H1, H2) := to_vm_scope _ _ a b H in conj H2 H1)
              Hf (envelope_items_iterable _)) as (r & Hr & HP).
  assert (H : exists vms,
             VCenterController.get_vms_in_resource_pool py_repr remote q log
             = (Ok vms, (log1 ++ endpoint :: nil)%list)
             /\ Forall (fun vm => vm_resource_pool_id vm = resource_pool_id rp
                                  /\ vm_cluster_id vm = VNone) vms).
  { eapply run_try_listing; [|exact HP].
    erewrite run_bind_ok by exact Hby. exact Hr. }
  destruct H as (vms & Hvms & HF).
  exists vms, endpoint. split.
  - rewrite Hlog, <- app_assoc in Hvms. exact Hvms.
  - split; [exact HF|].
    destruct (truthy (resource_pool_id rp)); [now apply Hyes|now apply Hno].
Qed.

Lemma pool_vms_carry_pool_id_witness :
  exists vms endpoint,
    VCenterController.get_vms_in_resource_pool sample_repr sample_remote "Gold" nil
    = (Ok vms, "vcenter/resource-pool" :: endpoint :: nil)
    /\ Forall (fun vm => vm_resource_pool_id vm = VStr "rp1"
                         /\ vm_cluster_id vm = VNone) vms
    /\ endpoint = "vcenter/vm?resource_pools=rp1".
Proof.
  exact (pool_vms_carry_pool_id sample_repr sample_remote "Gold" nil
           ("vcenter/resource-pool" :: nil)
           (mkResourcePool (VStr "rp1") (VStr "Gold") VNone) eq_refl).
Defined.

(** X8.  A cluster record without a name is listed under the name
    "Unknown", and a lookup of the cluster named "Unknown" finds it: with
    such a record first among well-formed records, the lookup returns it,
    with its identifier or "Unknown" in its place. *)
Theorem unknown_names_a_nameless_cluster
        (remote : list string -> string -> response) (log : list string)
        (d : list (string * value)) (rest : list value) :
  iter_items (envelope_items (remote log "vcenter/cluster")) = VDict d :: rest ->
  forallb is_dict rest = true ->
  dict_lookup d "name" = None ->
  VCenterController.get_cluster_by_name remote "Unknown" log
  = (Ok (Some (mkCluster (default (VStr "Unknown") (dict_lookup d "cluster"))
                 (VStr "Unknown") VNone)),
     (log ++ "vcenter/cluster" :: nil)%list).
Proof.
  intros Hraw Hrest Hname.
  pose proof (get_clusters_result remote log) as H. cbv zeta in H.
  rewrite Hraw in H. cbn [forallb is_dict andb] in H. rewrite Hrest in H.
  unfold VCenterController.get_cluster_by_name.
  erewrite run_bind_ok by exact H.
  cbn [map cluster_of field_or_unknown VCenterController.scan_clusters name].
  rewrite Hname. cbn. unfold cluster_of, field_or_unknown. now rewrite Hname.
Qed.

Lemma unknown_names_a_nameless_cluster_witness :
  VCenterController.get_cluster_by_name
    (fun _ _ => envelope (VDict (("cluster", VStr "c9") :: nil) :: nil))
    "Unknown" nil
  = (Ok (Some (mkCluster (VStr "c9") (VStr "Unknown") VNone)),
     "vcenter/cluster" :: nil).
Proof.
  exact (unknown_names_a_nameless_cluster
           (fun _ _ => envelope (VDict (("cluster", VStr "c9") :: nil) :: nil))
           nil (("cluster", VStr "c9") :: nil) nil eq_refl eq_refl eq_refl).
Defined.

(** X9.  Whatever the remote answers or fails to answer, the status
    snapshot is the "Connected" one and four requests are issued: the
    cluster listing twice, then the unfiltered resource-pool and VM
    listings.  The counts are the sizes of what those listings returned;
    the "Failed" and "Error" snapshots are never produced, and the status
    tool always answers with the "vCenter Status" text, never with an error
    text. *)
Theorem status_is_always_connected
        (py_repr : value -> string) (remote : list string -> string -> response)
        (config : VCenterConfig) (log : list string) :
  let log1 := (log ++ "vcenter/cluster" :: nil)%list in
  let log2 := (log1 ++ "vcenter/cluster" :: nil)%list in
  let log3 := (log2 ++ "vcenter/resource-pool" :: nil)%list in
  let raw := iter_items (envelope_items (remote log1 "vcenter/cluster")) in
  let n_clusters :=
    VCenterController.count (if forallb is_dict raw then length raw else 0) in
  let n_pools :=
    VCenterController.count
      (length (iter_items (envelope_items (remote log2 "vcenter/resource-pool")))) in
  let n_vms :=
    VCenterController.count
      (length (iter_items (envelope_items (remote log3 "vcenter/vm")))) in
  VCenterController.get_vcenter_status py_repr remote config log
  = (Ok (VDict
           (("host", host config)
            :: ("clusters_count", n_clusters)
            :: ("resource_pools_count", n_pools)
            :: ("vms_count", n_vms)
            :: ("connection_status", VStr "Connected") :: nil)),
     (log3 ++ "vcenter/vm" :: nil)%list)
  /\ MCPToolsView.get_vcenter_status py_repr remote config log
     = (Ok ("vCenter Status:" +:+ nl
            +:+ "- Connected to: " +:+ VCenterService.py_str py_repr (host config) +:+ nl
            +:+ "- Clusters: " +:+ py_repr n_clusters +:+ nl
            +:+ "- Resource Pools: " +:+ py_repr n_pools +:+ nl
            +:+ "- Virtual Machines: " +:+ py_repr n_vms +:+ nl
            +:+ "- Connection: Connected" +:+ nl),
        (log3 ++ "vcenter/vm" :: nil)%list).
Proof.
  intros log1 log2 log3 raw n_clusters n_pools n_vms.
  assert (H : VCenterController.get_vcenter_status py_repr remote config log
              = (Ok (VDict
                       (("host", host config)
                        :: ("clusters_count", n_clusters)
                        :: ("resource_pools_count", n_pools)
                        :: ("vms_count", n_vms)
                        :: ("connection_status", VStr "Connected") :: nil)),
                 (log3 ++ "vcenter/vm" :: nil)%list)).
  { unfold VCenterController.get_vcenter_status.
    apply run_try_ok.
    erewrite run_bind_ok by apply test_connection_always_true.
    cbn [negb]. fold log1.
    erewrite run_bind_ok by apply get_clusters_result. fold log2 raw.
    pose proof (run_get_resource_pools py_repr remote VNone log2) as Hp.
    cbv zeta in Hp. cbn [truthy] in Hp. fold log3 in Hp.
    erewrite run_bind_ok by exact Hp.
    destruct (run_get_virtual_machines py_repr remote VNone VNone log3)
      as (endpoint & Hv & _ & _ & Hep).
    rewrite (Hep eq_refl eq_refl) in Hv.
    erewrite run_bind_ok by exact Hv.
    unfold py_len. rewrite !envelope_items_iterable.
    erewrite run_bind_ok by apply run_lift.
    erewrite run_bind_ok by apply run_lift.
    rewrite run_ret. unfold n_clusters. repeat f_equal.
    destruct (forallb is_dict raw); [apply length_map|reflexivity]. }
  split; [exact H|].
  unfold MCPToolsView.get_vcenter_status. apply run_try_ok.
  erewrite run_bind_ok by exact H. reflexivity.
Qed.

(** The pool lookup is the one query without a handler of its own. *)
Lemma scan_resource_pools_stops_at (before after : list value) (bad : value)
      (q : string) :
  forallb is_dict before = true ->
  Forall (fun r => raw_name_matches r q = false) before ->
  is_dict bad = false ->
  VCenterController.scan_resource_pools (before ++ bad :: after) q
  = Raise (no_attribute bad "get").
Proof.
  intros Hd Hn Hbad. induction before as [|r rest IH].
  - destruct bad; try discriminate; reflexivity.
  - cbn [forallb] in Hd. apply andb_prop in Hd as [Hr Hrest].
    inversion Hn as [|? ? Hm Hn']; subst.
    destruct r as [| | | | | |d]; try discriminate.
    cbn [app VCenterController.scan_resource_pools py_get mbind outcome_bind obind].
    cbn [raw_name_matches] in Hm.
    destruct (dict_lookup d "name") as [v|]; cbn [default from_option id].
    + rewrite Hm. now apply IH.
    + cbn [eq_str]. now apply IH.
Qed.

(** X10.  Looking a resource pool up by name raises when a record that is
    no object comes before any record of that name: the lookup has no
    handler of its own.  The VM listing built on it has one, and returns the
    empty list after that single request. *)
Theorem pool_lookup_raises_on_malformed_record
        (py_repr : value -> string) (remote : list string -> string -> response)
        (q : string) (log : list string) (before after : list value)
        (bad : value) :
  iter_items (envelope_items (remote log "vcenter/resource-pool"))
  = (before ++ bad :: after)%list ->
  forallb is_dict before = true ->
  Forall (fun r => raw_name_matches r q = false) before ->
  is_dict bad = false ->
  VCenterController.get_resource_pool_by_name py_repr remote q log
    = (Raise (no_attribute bad "get"), (log ++ "vcenter/resource-pool" :: nil)%list)
  /\ VCenterController.get_vms_in_resource_pool py_repr remote q log
    = (Ok nil, (log ++ "vcenter/resource-pool" :: nil)%list).
Proof.
  intros Hraw Hd Hn Hbad.
  assert (Hby : VCenterController.get_resource_pool_by_name py_repr remote q log
                = (Raise (no_attribute bad "get"),
                   (log ++ "vcenter/resource-pool" :: nil)%list)).
  { unfold VCenterController.get_resource_pool_by_name.
    pose proof (run_get_resource_pools py_repr remote VNone log) as Hp.
    cbv zeta in Hp. cbn [truthy] in Hp.
    erewrite run_bind_ok by exact Hp.
    unfold py_iter. rewrite envelope_items_iterable.
    erewrite run_bind_ok by apply run_lift.
    rewrite run_lift, Hraw.
    now rewrite (scan_resource_pools_stops_at before after bad q Hd Hn Hbad). }
  split; [exact Hby|].
  unfold VCenterController.get_vms_in_resource_pool.
  erewrite run_try_raise; [reflexivity|].
  erewrite run_bind_raise by exact Hby. reflexivity.
Qed.

Lemma pool_lookup_raises_on_malformed_record_witness :
  VCenterController.get_resource_pool_by_name sample_repr
    (fun _ _ => envelope (VDict (("name", VStr "Silver") :: nil)
                          :: VNone
                          :: VDict (("name", VStr "Gold") :: nil) :: nil))
    "Gold" nil
  = (Raise (no_attribute VNone "get"), "vcenter/resource-pool" :: nil).
Proof.
  refine (proj1 (pool_lookup_raises_on_malformed_record sample_repr
                   (fun _ _ => envelope (VDict (("name", VStr "Silver") :: nil)
                                         :: VNone
                                         :: VDict (("name", VStr "Gold") :: nil)
                                         :: nil))
                   "Gold" nil
                   (VDict (("name", VStr "Silver") :: nil) :: nil)
                   (VDict (("name", VStr "Gold") :: nil) :: nil)
                   VNone eq_refl eq_refl _ eq_refl)).
  repeat constructor.
Defined.

(** ** The tools *)

Lemma string_app_assoc (a b c : string) : (a +:+ b) +:+ c = a +:+ (b +:+ c).
Proof.
  induction a as [|x a IH]; [reflexivity|].
  change (String x ((a +:+ b) +:+ c) = String x (a +:+ (b +:+ c))).
  now rewrite IH.
Qed.

Lemma run_try_nil_total {B} (m : M (list B)) log :
  exists bs log', try_except m (fun _ => mret nil) log = (Ok bs, log').
Proof.
  unfold try_except. destruct (m log) as [[bs|e] log']; eexists; eexists; reflexivity.
Qed.

(** X11.  The three scoped listing tools never answer with their error
    text: each returns what the matching formatter makes of the query
    layer's result, with the context [cluster '<name>'] or
    [resource pool '<name>'], and issues the same requests. *)
Theorem tools_agree_with_formatters
        (py_repr : value -> string) (remote : list string -> string -> response)
        (q : string) (log : list string) :
  (exists vms log',
      VCenterController.get_vms_in_cluster py_repr remote q log = (Ok vms, log')
      /\ MCPToolsView.list_vms_in_cluster py_repr remote q log
         = (Ok (MCPToolsView.format_vm_list py_repr vms ("cluster '" +:+ q +:+ "'")),
            log'))
  /\ (exists pools log',
        VCenterController.get_resource_pools_in_cluster py_repr remote q log
        = (Ok pools, log')
        /\ MCPToolsView.list_resource_pools py_repr remote q log
           = (Ok (MCPToolsView.format_resource_pool_list py_repr pools
                    ("cluster '" +:+ q +:+ "'")), log'))
  /\ (exists vms log',
        VCenterController.get_vms_in_resource_pool py_repr remote q log
        = (Ok vms, log')
        /\ MCPToolsView.list_vms_in_resource_pool py_repr remote q log
           = (Ok (MCPToolsView.format_vm_list py_repr vms
                    ("resource pool '" +:+ q +:+ "'")), log')).
Proof.
  split; [|split].
  - destruct (run_try_nil_total
                (found ← VCenterController.get_cluster_by_name remote q;
                 match found with
                 | None => mret nil
                 | Some cluster =>
                     raw_vms ← VCenterService.get_virtual_machines py_repr remote
                                 (cluster_id cluster) VNone;
                     items ← lift (py_iter raw_vms);
                     lift (mapM (VCenterController.to_vm (cluster_id cluster) VNone)
                             items)
                 end) log) as (vms & log' & H).
    exists vms, log'. split; [exact H|].
    unfold MCPToolsView.list_vms_in_cluster. apply run_try_ok.
    erewrite run_bind_ok by exact H.
    destruct vms as [|vm vms]; [reflexivity|].
    cbn [MCPToolsView.format_vm_list]. rewrite !string_app_assoc. reflexivity.
  - destruct (run_try_nil_total
                (found ← VCenterController.get_cluster_by_name remote q;
                 match found with
                 | None => mret nil
                 | Some cluster =>
                     raw_resource_pools ←
                       VCenterService.get_resource_pools py_repr remote
                         (cluster_id cluster);
                     items ← lift (py_iter raw_resource_pools);
                     lift (mapM (VCenterController.to_resource_pool
                                   (cluster_id cluster)) items)
                 end) log) as (pools & log' & H).
    exists pools, log'. split; [exact H|].
    unfold MCPToolsView.list_resource_pools. apply run_try_ok.
    erewrite run_bind_ok by exact H.
    destruct pools as [|rp pools]; [reflexivity|].
    cbn [MCPToolsView.format_resource_pool_list]. rewrite !string_app_assoc.
    reflexivity.
  - destruct (run_try_nil_total
                (found ← VCenterController.get_resource_pool_by_name py_repr remote q;
                 match found with
                 | None => mret nil
                 | Some resource_pool =>
                     raw_vms ← VCenterService.get_virtual_machines py_repr remote
                                 VNone (resource_pool_id resource_pool);
                     items ← lift (py_iter raw_vms);
                     lift (mapM (VCenterController.to_vm VNone
                                   (resource_pool_id resource_pool)) items)
                 end) log) as (vms & log' & H).
    exists vms, log'. split; [exact H|].
    unfold MCPToolsView.list_vms_in_resource_pool. apply run_try_ok.
    erewrite run_bind_ok by exact H.
    destruct vms as [|vm vms]; [reflexivity|].
    cbn [MCPToolsView.format_vm_list]. rewrite !string_app_assoc. reflexivity.
Qed.

(** ** Resolving the configuration and starting the server *)

Lemma env_credentials_incomplete (env : gmap string string) :
  set_nonempty env "VCENTER_HOST" && set_nonempty env "VCENTER_USERNAME"
  && set_nonempty env "VCENTER_PASSWORD" = false ->
  ConfigManager._get_credentials_from_env env = None.
Proof.
  unfold set_nonempty, ConfigManager._get_credentials_from_env, getenv.
  destruct (env !! "VCENTER_HOST"), (env !! "VCENTER_USERNAME"),
           (env !! "VCENTER_PASSWORD"); cbn [truthy andb];
    rewrite ?andb_false_r; try reflexivity.
  now intros ->.
Qed.

Lemma binding_unreadable_none jl env :
  binding_unreadable jl env ->
  ConfigManager._get_credentials_from_service_binding jl env = None.
Proof.
  unfold binding_unreadable, ConfigManager._get_credentials_from_service_binding,
    getenv.
  destruct (env !! "VCAP_SERVICES") as [doc|]; [|reflexivity].
  intros [->|Hjl]; [reflexivity|].
  destruct (negb (truthy (VStr doc))); [reflexivity|].
  unfold ConfigManager.loads. now rewrite Hjl.
Qed.

(** X12.  When one of the three credential variables is unset or empty and
    the binding variable is unset, empty or holds no JSON document,
    resolving the configuration raises the ValueError that names the
    variables to set (an undecodable binding does not surface as a decoding
    error); creating the server re-raises it, and the entry point exits with
    status 1 without serving, whatever PORT holds. *)
Theorem missing_credentials_stop_the_server
        (msd : nat) (jl : string -> option value)
        (run_http_async : ServerFactory.FastMCP -> string -> Z -> outcome unit)
        (env : gmap string string) :
  set_nonempty env "VCENTER_HOST" && set_nonempty env "VCENTER_USERNAME"
  && set_nonempty env "VCENTER_PASSWORD" = false ->
  binding_unreadable jl env ->
  ConfigManager.get_vcenter_config msd jl env
    = Raise ConfigManager.credentials_not_found
  /\ ServerFactory.create_mcp_server msd jl env
    = Raise ConfigManager.credentials_not_found
  /\ Main.main msd jl run_http_async env = Main.Exit 1.
Proof.
  intros Henv Hb.
  assert (H : ConfigManager.get_vcenter_config msd jl env
              = Raise ConfigManager.credentials_not_found).
  { unfold ConfigManager.get_vcenter_config, ConfigManager.get_vcenter_credentials.
    now rewrite (env_credentials_incomplete env Henv),
      (binding_unreadable_none jl env Hb). }
  assert (Hs : ServerFactory.create_mcp_server msd jl env
               = Raise ConfigManager.credentials_not_found).
  { unfold ServerFactory.create_mcp_server. now rewrite H. }
  split; [exact H|]. split; [exact Hs|].
  unfold Main.main, Main.main_async.
  destruct (Main.resolve_port msd env) as [port|e]; [|reflexivity].
  cbn [mbind outcome_bind obind]. now rewrite Hs.
Qed.

Lemma missing_credentials_stop_the_server_witness :
  Main.main 4300 no_json serve_ok (env_of env_partial) = Main.Exit 1.
Proof.
  refine (proj2 (proj2 (missing_credentials_stop_the_server 4300 no_json serve_ok
                          (env_of env_partial) _ _))).
  - vm_compute. reflexivity.
  - vm_compute. right. reflexivity.
Defined.

Lemma scan_service_list_step (v : value) (rest : list value) :
  descriptor_shaped v = true ->
  ConfigManager.scan_service_list (v :: rest)
  = match first_usable (v :: nil) with
    | Some c => Ok (Some c)
    | None => ConfigManager.scan_service_list rest
    end.
Proof.
  intros Hv.
  pose proof (scan_service_list_shaped (v :: nil)) as H1.
  cbn [forallb] in H1. rewrite Hv in H1. specialize (H1 eq_refl).
  revert H1.
  cbn [ConfigManager.scan_service_list first_usable].
  destruct (ConfigManager._is_vcenter_service v) as [[|]|e];
    cbn [mbind outcome_bind obind]; [| |discriminate].
  - destruct (py_get v "credentials" (VDict nil)) as [c|e];
      cbn [mbind outcome_bind obind]; [|discriminate].
    destruct (py_get c "host" VNone) as [h|e];
      cbn [mbind outcome_bind obind]; [|discriminate].
    destruct (py_get c "username" VNone) as [u|e];
      cbn [mbind outcome_bind obind]; [|discriminate].
    destruct (py_get c "password" VNone) as [pw|e];
      cbn [mbind outcome_bind obind]; [|discriminate].
    destruct (truthy h && truthy u && truthy pw).
    + intros [= <-]. reflexivity.
    + intros [= <-]. reflexivity.
  - intros [= <-]. reflexivity.
Qed.

Lemma scan_service_list_prefix (before rest : list value) :
  forallb descriptor_shaped before = true ->
  first_usable before = None ->
  ConfigManager.scan_service_list (before ++ rest)
  = ConfigManager.scan_service_list rest.
Proof.
  induction before as [|v before IH]; [reflexivity|].
  cbn [forallb]. intros [Hv Hb]%andb_prop Hnone.
  change ((v :: before) ++ rest)%list with (v :: (before ++ rest))%list.
  rewrite (scan_service_list_step v _ Hv).
  change (v :: before)%list with ((v :: nil) ++ before)%list in Hnone.
  rewrite first_usable_app in Hnone.
  destruct (first_usable (v :: nil)); [discriminate|]. now apply IH.
Qed.

Lemma scan_services_prefix (pre rest : list (string * value)) :
  forallb bucket_shaped pre = true ->
  first_usable (concat (map bucket_descriptors pre)) = None ->
  ConfigManager.scan_services (pre ++ rest) = ConfigManager.scan_services rest.
Proof.
  induction pre as [|[ty sl] pre IH]; [reflexivity|].
  cbn [forallb]. intros [Hb Hpre]%andb_prop.
  unfold bucket_shaped in Hb. cbn [snd] in Hb.
  destruct sl as [| | | | |l|]; try discriminate.
  cbn [map concat bucket_descriptors snd]. rewrite first_usable_app.
  destruct (first_usable l) eqn:Hl; [discriminate|]. intros Hnone.
  change (((ty, VList l) :: pre) ++ rest)%list
    with ((ty, VList l) :: (pre ++ rest))%list.
  cbn [ConfigManager.scan_services].
  change (py_iter (VList l)) with (Ok l). cbn [mbind outcome_bind obind].
  rewrite (scan_service_list_shaped l Hb), Hl. now apply IH.
Qed.

(** X13.  The scan of a service binding does not skip a malformed
    descriptor: when a descriptor that is no JSON object comes before every
    usable one, the scan is abandoned and the binding yields no
    credentials, whatever descriptors and service types follow it. *)
Theorem malformed_descriptor_hides_later_ones
        (jl : string -> option value) (env : gmap string string) (doc : string)
        (pre more : list (string * value)) (ty : string)
        (before after : list value) (bad : value) :
  env !! "VCAP_SERVICES" = Some doc ->
  doc <> "" ->
  jl doc = Some (VDict (pre ++ (ty, VList (before ++ bad :: after)) :: more)) ->
  forallb bucket_shaped pre = true ->
  first_usable (concat (map bucket_descriptors pre)) = None ->
  forallb descriptor_shaped before = true ->
  first_usable before = None ->
  is_dict bad = false ->
  ConfigManager._get_credentials_from_service_binding jl env = None.
Proof.
  intros Henv Hdoc Hjl Hpre Hpre' Hbef Hbef' Hbad.
  unfold ConfigManager._get_credentials_from_service_binding, getenv.
  rewrite Henv, (truthy_nonempty doc Hdoc). cbn [negb].
  unfold ConfigManager.loads. rewrite Hjl.
  cbn [mbind outcome_bind obind py_items].
  rewrite (scan_services_prefix pre _ Hpre Hpre').
  cbn [ConfigManager.scan_services].
  change (py_iter (VList (before ++ bad :: after))) with (Ok (before ++ bad :: after)%list).
  cbn [mbind outcome_bind obind].
  rewrite (scan_service_list_prefix before _ Hbef Hbef').
  destruct bad; try discriminate; reflexivity.
Qed.

Lemma malformed_descriptor_hides_later_ones_witness :
  ConfigManager._get_credentials_from_service_binding
    (fun _ => Some binding_null_first) (env_of env_binding_only) = None.
Proof.
  refine (malformed_descriptor_hides_later_ones
            (fun _ => Some binding_null_first) (env_of env_binding_only) "{...}"
            nil nil "user-provided" nil
            (VDict (("name", VStr "my-vcenter")
                    :: ("credentials",
                        VDict (("host", VStr "https://bound")
                               :: ("username", VStr "svc")
                               :: ("password", VStr "pw") :: nil))
                    :: nil) :: nil)
            VNone eq_refl _ eq_refl eq_refl eq_refl eq_refl eq_refl eq_refl).
  discriminate.
Defined.

Lemma get_vcenter_config_of_credentials msd jl env creds :
  ConfigManager.get_vcenter_credentials jl env = Ok creds ->
  exists cfg,
    ConfigManager.get_vcenter_config msd jl env = Ok cfg
    /\ host cfg = cred_host creds.
Proof.
  intros Hc. unfold ConfigManager.get_vcenter_config. rewrite Hc.
  cbn [mbind outcome_bind obind]. rewrite resolve_timeout_value.
  eexists. split; reflexivity.
Qed.

(** X14.  Creating the server needs a string host.  Credentials taken from
    the environment always have one; with a string host the configuration
    resolves and the controller is constructed, its client holding the host
    without trailing slashes.  A host that is no string, which only a
    service binding can supply (a JSON number, say), makes the client's
    constructor raise AttributeError: [create_mcp_server] re-raises it and
    the entry point exits with status 1. *)
Theorem server_creation_needs_string_host
        (msd : nat) (jl : string -> option value)
        (run_http_async : ServerFactory.FastMCP -> string -> Z -> outcome unit)
        (env : gmap string string) (creds : VCenterCredentials) :
  ConfigManager.get_vcenter_credentials jl env = Ok creds ->
  (forall c, ConfigManager._get_credentials_from_env env = Some c ->
             c = creds /\ is_str (cred_host creds) = true)
  /\ (forall h, cred_host creds = VStr h ->
        exists cfg,
          ConfigManager.get_vcenter_config msd jl env = Ok cfg
          /\ host cfg = VStr h
          /\ VCenterController.__init__ cfg
             = Ok (VCenterController.mk cfg
                     (VCenterService.mk cfg (rstrip_slash h))))
  /\ (is_str (cred_host creds) = false ->
      ServerFactory.create_mcp_server msd jl env
        = Raise (no_attribute (cred_host creds) "rstrip")
      /\ Main.main msd jl run_http_async env = Main.Exit 1).
Proof.
  intros Hc.
  destruct (get_vcenter_config_of_credentials msd jl env creds Hc)
    as (cfg & Hcfg & Hhost).
  split; [|split].
  - intros c Hsome. revert Hc.
    unfold ConfigManager.get_vcenter_credentials. rewrite Hsome.
    intros [= <-]. split; [reflexivity|].
    revert Hsome. unfold ConfigManager._get_credentials_from_env, getenv.
    destruct (env !! "VCENTER_HOST"); cbn [truthy andb]; [|discriminate].
    destruct (_ && _); [|discriminate]. now intros [= <-].
  - intros h Hh. exists cfg. split; [exact Hcfg|].
    rewrite Hhost, Hh. split; [reflexivity|].
    unfold VCenterController.__init__, VCenterService.__init__.
    rewrite Hhost, Hh. reflexivity.
  - intros Hstr.
    assert (Hs : ServerFactory.create_mcp_server msd jl env
                 = Raise (no_attribute (cred_host creds) "rstrip")).
    { unfold ServerFactory.create_mcp_server. rewrite Hcfg.
      cbn [mbind outcome_bind obind].
      unfold VCenterController.__init__, VCenterService.__init__.
      rewrite Hhost. destruct (cred_host creds); try discriminate; reflexivity. }
    split; [exact Hs|].
    unfold Main.main, Main.main_async.
    destruct (Main.resolve_port msd env) as [port|e]; [|reflexivity].
    cbn [mbind outcome_bind obind]. now rewrite Hs.
Qed.

Lemma server_creation_needs_string_host_witness :
  ServerFactory.create_mcp_server 4300 (fun _ => Some binding_numeric_host)
    (env_of env_binding_only)
  = Raise (no_attribute (VInt 8443) "rstrip")
  /\ Main.main 4300 (fun _ => Some binding_numeric_host) serve_ok
       (env_of env_binding_only)
     = Main.Exit 1.
Proof.
  exact (proj2 (proj2 (server_creation_needs_string_host 4300
                         (fun _ => Some binding_numeric_host) serve_ok
                         (env_of env_binding_only)
                         (mkVCenterCredentials (VInt 8443) (VStr "svc") (VStr "pw"))
                         eq_refl))
           eq_refl).
Defined.

(** X15.  A PORT value that [int()] refuses ends the process with status 1
    before the server is created or served, whereas the same text in
    VCENTER_TIMEOUT is replaced by the default 30: the port is not
    defaulted. *)
Theorem malformed_port_ends_the_process
        (msd : nat) (jl : string -> option value)
        (run_http_async : ServerFactory.FastMCP -> string -> Z -> outcome unit)
        (env : gmap string string) (s : string) (e : exn) :
  env !! "PORT" = Some s ->
  py_int msd s = Raise e ->
  Main.main msd jl run_http_async env = Main.Exit 1
  /\ (env !! "VCENTER_TIMEOUT" = Some s ->
      ConfigManager.resolve_timeout msd env = Ok 30).
Proof.
  intros Hport Hs. split.
  - unfold Main.main, Main.main_async, Main.resolve_port. rewrite Hport, Hs.
    reflexivity.
  - intros Ht. rewrite resolve_timeout_value. unfold timeout_variable.
    now rewrite Ht, Hs.
Qed.

Lemma malformed_port_ends_the_process_witness :
  Main.main 4300 no_json serve_ok (env_of env_bad_port) = Main.Exit 1
  /\ ConfigManager.resolve_timeout 4300 (env_of env_bad_port) = Ok 30.
Proof.
  destruct (malformed_port_ends_the_process 4300 no_json serve_ok
              (env_of env_bad_port) "80a"
              (invalid_literal "80a") eq_refl eq_refl) as (H1 & H2).
  split; [exact H1|exact (H2 eq_refl)].
Defined.

(** ** The connection test script *)

Lemma run_say (print : string -> outcome unit) (text : string) log :
  (forall s, print s = Ok tt) -> TestConnection.say print text log = (Ok tt, log).
Proof. intros H. unfold TestConnection.say. now rewrite run_lift, H. Qed.

Lemma show_names_total py_repr (print : string -> outcome unit) (l : list value) log :
  (forall s, print s = Ok tt) ->
  forallb is_dict l = true ->
  TestConnection.show_names py_repr print l log = (Ok tt, log).
Proof.
  intros Hp. induction l as [|r rest IH]; [reflexivity|].
  cbn [forallb]. intros [Hr Hrest]%andb_prop.
  destruct r; try discriminate.
  cbn [TestConnection.show_names py_get].
  erewrite run_bind_ok by apply run_lift.
  erewrite run_bind_ok by (apply run_say; exact Hp).
  now apply IH.
Qed.

(** X16.  Given a configuration that resolves with a string host and a
    cluster listing whose first three records are objects (records after
    the third are not looked at), the connection test script returns True
    on an output that takes every text, after four requests: in particular
    when every request fails.  On an output that refuses the first message
    and the failure message, the script issues no request and raises what
    the second [print] raised. *)
Theorem connection_test_passes_without_connection
        (msd : nat) (jl : string -> option value) (py_repr : value -> string)
        (remote : list string -> string -> response)
        (print : string -> outcome unit)
        (env : gmap string string) (cfg : VCenterConfig) (h : string)
        (log : list string) (l : list value) :
  ConfigManager.get_vcenter_config msd jl env = Ok cfg ->
  host cfg = VStr h ->
  envelope_items (remote log "vcenter/cluster") = VList l ->
  forallb is_dict (firstn 3 l) = true ->
  ((forall s, print s = Ok tt) ->
   TestConnection.test_connection msd jl py_repr remote print env log
   = (Ok true,
      (log ++ "vcenter/cluster" :: "vcenter/resource-pool" :: "vcenter/vm"
           :: "vcenter/cluster" :: nil)%list))
  /\ (forall e e',
        print "✓ Configuration loaded successfully" = Raise e ->
        print ("❌ Test failed: " +:+ exn_msg e) = Raise e' ->
        TestConnection.test_connection msd jl py_repr remote print env log
        = (Raise e', log)).
Proof.
  intros Hcfg Hhost Hitems Hfirst. split.
  - intros Hp.
    unfold TestConnection.test_connection. apply run_try_ok.
    erewrite run_bind_ok by (rewrite run_lift, Hcfg; reflexivity).
    do 5 (erewrite run_bind_ok by (apply run_say; exact Hp)).
    erewrite run_bind_ok
      by (rewrite run_lift; unfold VCenterService.__init__; rewrite Hhost; reflexivity).
    do 2 (erewrite run_bind_ok by (apply run_say; exact Hp)).
    pose proof (envelope_result remote "vcenter/cluster" log) as Hc.
    change (VCenterService.get_clusters remote log
            = (Ok (envelope_items (remote log "vcenter/cluster")),
               (log ++ "vcenter/cluster" :: nil)%list)) in Hc.
    rewrite Hitems in Hc.
    erewrite run_bind_ok by exact Hc.
    erewrite run_bind_ok by apply run_lift.
    erewrite run_bind_ok by (apply run_say; exact Hp).
    erewrite run_bind_ok by apply run_lift.
    erewrite run_bind_ok by apply run_lift.
    erewrite run_bind_ok by (apply show_names_total; [exact Hp|exact Hfirst]).
    pose proof (run_get_resource_pools py_repr remote VNone
                  (log ++ "vcenter/cluster" :: nil)%list) as Hr.
    cbv zeta in Hr. cbn [truthy] in Hr.
    erewrite run_bind_ok by exact Hr.
    unfold py_len. rewrite envelope_items_iterable.
    erewrite run_bind_ok by apply run_lift.
    erewrite run_bind_ok by (apply run_say; exact Hp).
    destruct (run_get_virtual_machines py_repr remote VNone VNone
                ((log ++ "vcenter/cluster" :: nil) ++ "vcenter/resource-pool" :: nil)%list)
      as (endpoint & Hv & _ & _ & Hep).
    rewrite (Hep eq_refl eq_refl) in Hv.
    erewrite run_bind_ok by exact Hv.
    rewrite envelope_items_iterable.
    erewrite run_bind_ok by apply run_lift.
    erewrite run_bind_ok by (apply run_say; exact Hp).
    erewrite run_bind_ok by apply test_connection_always_true.
    do 2 (erewrite run_bind_ok by (apply run_say; exact Hp)).
    rewrite run_ret. f_equal. rewrite <- !app_assoc. reflexivity.
  - intros e e' He He'.
    unfold TestConnection.test_connection.
    erewrite run_try_raise.
    + erewrite run_bind_raise; [reflexivity|].
      unfold TestConnection.say. rewrite run_lift, He'. reflexivity.
    + erewrite run_bind_ok by (rewrite run_lift, Hcfg; reflexivity).
      erewrite run_bind_raise; [reflexivity|].
      unfold TestConnection.say. rewrite run_lift, He. reflexivity.
Qed.

Lemma connection_test_passes_without_connection_witness :
  TestConnection.test_connection 4300 no_json sample_repr all_fail print_all
    (env_of env_credentials) nil
  = (Ok true,
     "vcenter/cluster" :: "vcenter/resource-pool" :: "vcenter/vm"
     :: "vcenter/cluster" :: nil).
Proof.
  exact (proj1 (connection_test_passes_without_connection 4300 no_json sample_repr
                  all_fail print_all (env_of env_credentials)
                  (mkVCenterConfig (VStr "https://vc/") (VStr "admin")
                     (VStr "secret") true 30)
                  "https://vc/" nil nil eq_refl eq_refl eq_refl eq_refl)
           (fun _ => eq_refl)).
Defined.

(** ** The environment setup script *)

Lemma append_cons (c : ascii) (a b : string) : String c a +:+ b = String c (a +:+ b).
Proof. reflexivity. Qed.

Lemma prefix_app (a s : string) : String.prefix a (a +:+ s) = true.
Proof.
  induction a as [|c a IH]; [now destruct s|].
  rewrite append_cons. cbn [String.prefix].
  destruct (ascii_dec c c); [exact IH|congruence].
Qed.

Lemma prefix_written_line (key value : string) :
  String.prefix (key +:+ "=") (key +:+ "=" +:+ value +:+ nl) = true.
Proof. rewrite <- (string_app_assoc key "="). apply prefix_app. Qed.





Lemma replace_first_twice (key v1 v2 : string) (lines : list string) :
  fst (SetupEnv.replace_first key v2 (fst (SetupEnv.replace_first key v1 lines)))
  = fst (SetupEnv.replace_first key v2 lines).
Proof.
  induction lines as [|line rest IH]; [reflexivity|].
  cbn [SetupEnv.replace_first].
  destruct (String.prefix (key +:+ "=") line) eqn:Hl.
  - cbn [fst SetupEnv.replace_first]. now rewrite prefix_written_line.
  - destruct (SetupEnv.replace_first key v1 rest) as [rest1 u1] eqn:E1.
    cbn [fst] in IH |- *. cbn [SetupEnv.replace_first]. rewrite Hl.
    destruct (SetupEnv.replace_first key v2 rest1) as [rest12 u12].
    destruct (SetupEnv.replace_first key v2 rest) as [rest2 u2].
    cbn [fst] in IH |- *. now rewrite IH.
Qed.

Lemma replace_first_length (key value : string) (lines : list string) :
  length (fst (SetupEnv.replace_first key value lines)) = length lines.
Proof.
  induction lines as [|line rest IH]; [reflexivity|].
  cbn [SetupEnv.replace_first].
  destruct (String.prefix (key +:+ "=") line); [reflexivity|].
  destruct (SetupEnv.replace_first key value rest) as [rest' u].
  cbn [fst length] in IH |- *. now rewrite IH.
Qed.

(** *** Writing the lines and reading them back *)

Lemma append_nil_r (s : string) : s +:+ "" = s.
Proof.
  induction s as [|c s IH]; [reflexivity|]. rewrite append_cons. now rewrite IH.
Qed.

Lemma terminated_cr_free (s : string) : terminated s = true -> cr_free s = true.
Proof.
  induction s as [|c s IH]; [discriminate|]. cbn [terminated cr_free].
  destruct (SetupEnv.is_lf c) eqn:Hlf.
  - destruct s; [|discriminate]. intros _.
    unfold SetupEnv.is_lf in Hlf. unfold SetupEnv.is_cr.
    apply Nat.eqb_eq in Hlf. rewrite Hlf. reflexivity.
  - intros [Hc Hs]%andb_prop. rewrite Hc. now apply IH.
Qed.

Lemma break_free_cr_free (s : string) : break_free s = true -> cr_free s = true.
Proof.
  induction s as [|c s IH]; [reflexivity|]. cbn [break_free cr_free].
  intros [[_ Hc]%andb_prop Hs]%andb_prop. rewrite Hc. now apply IH.
Qed.

Lemma cr_free_app (a b : string) :
  cr_free a = true -> cr_free b = true -> cr_free (a +:+ b) = true.
Proof.
  intros Ha Hb. induction a as [|c a IH]; [exact Hb|].
  rewrite append_cons. cbn [cr_free] in Ha |- *.
  apply andb_prop in Ha as [Hc Ha]. rewrite Hc. now apply IH.
Qed.

Lemma as_read_tail (line : string) (rest : list string) :
  as_read (line :: rest) = true -> as_read rest = true.
Proof. cbn [as_read]. now intros [_ H]%andb_prop. Qed.

Lemma as_read_cr_free (lines : list string) :
  as_read lines = true -> cr_free (SetupEnv.writelines lines) = true.
Proof.
  induction lines as [|line rest IH]; [reflexivity|].
  cbn [as_read SetupEnv.writelines]. intros [Hl Hrest]%andb_prop.
  apply cr_free_app; [|now apply IH].
  apply orb_prop in Hl as [Ht|Ho]; [now apply terminated_cr_free|].
  apply andb_prop in Ho as [[_ Hb]%andb_prop _]. now apply break_free_cr_free.
Qed.

Lemma universal_newlines_id (s : string) :
  cr_free s = true -> SetupEnv.universal_newlines false s = s.
Proof.
  induction s as [|c s IH]; [reflexivity|]. cbn [cr_free].
  intros [Hc Hs]%andb_prop. cbn [SetupEnv.universal_newlines].
  apply negb_true_iff in Hc. rewrite Hc.
  destruct (SetupEnv.is_lf c); now rewrite (IH Hs).
Qed.

Lemma universal_newlines_cr_free (b : bool) (s : string) :
  cr_free (SetupEnv.universal_newlines b s) = true.
Proof.
  revert b. induction s as [|c s IH]; intros b; [reflexivity|].
  cbn [SetupEnv.universal_newlines].
  destruct (SetupEnv.is_cr c) eqn:Hc.
  - cbn [cr_free]. now rewrite IH.
  - destruct (SetupEnv.is_lf c).
    + destruct b; [apply IH|]. cbn [cr_free]. now rewrite Hc, IH.
    + cbn [cr_free]. now rewrite Hc, IH.
Qed.

Lemma split_lines_terminated (line rest : string) :
  terminated line = true ->
  SetupEnv.split_lines (line +:+ rest) = line :: SetupEnv.split_lines rest.
Proof.
  induction line as [|c line IH]; [discriminate|].
  rewrite append_cons. cbn [terminated SetupEnv.split_lines].
  destruct (SetupEnv.is_lf c).
  - destruct line; [|discriminate]. reflexivity.
  - intros [_ Ht]%andb_prop. now rewrite (IH Ht).
Qed.

Lemma split_lines_open (line : string) :
  break_free line = true -> line <> "" ->
  SetupEnv.split_lines line = line :: nil.
Proof.
  induction line as [|c line IH]; [congruence|]. intros Hb _.
  cbn [break_free] in Hb. apply andb_prop in Hb as [[Hlf _]%andb_prop Hb].
  apply negb_true_iff in Hlf. cbn [SetupEnv.split_lines]. rewrite Hlf.
  destruct line as [|c' line]; [reflexivity|].
  rewrite IH; [reflexivity|exact Hb|discriminate].
Qed.

Lemma split_lines_writelines (lines : list string) :
  as_read lines = true ->
  SetupEnv.split_lines (SetupEnv.writelines lines) = lines.
Proof.
  induction lines as [|line rest IH]; [reflexivity|].
  cbn [as_read SetupEnv.writelines]. intros [Hl Hrest]%andb_prop.
  apply orb_prop in Hl as [Ht|Ho].
  - rewrite (split_lines_terminated line _ Ht). now rewrite (IH Hrest).
  - apply andb_prop in Ho as [[Hnil Hb]%andb_prop Hne].
    destruct rest; [|discriminate]. cbn [SetupEnv.writelines].
    rewrite append_nil_r. apply split_lines_open; [exact Hb|].
    intros ->. discriminate.
Qed.

(** What is written is read back as it was written. *)
Lemma readlines_writelines (lines : list string) :
  as_read lines = true ->
  SetupEnv.readlines (SetupEnv.writelines lines) = lines.
Proof.
  intros H. unfold SetupEnv.readlines.
  rewrite (universal_newlines_id _ (as_read_cr_free lines H)).
  now apply split_lines_writelines.
Qed.

Lemma split_lines_as_read (s : string) :
  cr_free s = true -> as_read (SetupEnv.split_lines s) = true.
Proof.
  induction s as [|c s IH]; [reflexivity|]. cbn [cr_free].
  intros [Hc Hs]%andb_prop. specialize (IH Hs).
  cbn [SetupEnv.split_lines].
  destruct (SetupEnv.is_lf c) eqn:Hlf.
  - cbn [as_read terminated]. rewrite Hlf. exact IH.
  - destruct (SetupEnv.split_lines s) as [|line rest].
    + cbn [as_read terminated break_free]. now rewrite Hlf, Hc.
    + cbn [as_read] in IH |- *. apply andb_prop in IH as [Hl Hrest].
      rewrite Hrest, andb_true_r.
      cbn [terminated break_free]. rewrite Hlf, Hc. cbn [negb andb].
      apply orb_prop in Hl as [Ht|Ho]; [now rewrite Ht|].
      apply andb_prop in Ho as [[Hnil Hb]%andb_prop _].
      rewrite Hnil, Hb. apply orb_true_r.
Qed.

Lemma readlines_as_read (text : string) : as_read (SetupEnv.readlines text) = true.
Proof. apply split_lines_as_read, universal_newlines_cr_free. Qed.

Lemma break_free_app (a b : string) :
  break_free a = true -> break_free b = true -> break_free (a +:+ b) = true.
Proof.
  intros Ha Hb. induction a as [|c a IH]; [exact Hb|].
  rewrite append_cons. cbn [break_free] in Ha |- *.
  apply andb_prop in Ha as [Hc Ha]. rewrite Hc. now apply IH.
Qed.

Lemma terminated_app_nl (s : string) :
  break_free s = true -> terminated (s +:+ nl) = true.
Proof.
  induction s as [|c s IH]; [reflexivity|].
  rewrite append_cons. cbn [break_free terminated].
  intros [[Hlf Hcr]%andb_prop Hs]%andb_prop.
  apply negb_true_iff in Hlf. rewrite Hlf, Hcr. now apply IH.
Qed.

(** A line that was read and starts with [key=] shows that the key holds no
    line break. *)
Lemma prefix_key_break_free (key line : string) :
  terminated line = true \/ break_free line = true ->
  String.prefix (key +:+ "=") line = true ->
  break_free key = true.
Proof.
  revert line. induction key as [|c key IH]; intros line Hl Hp; [reflexivity|].
  rewrite append_cons in Hp. destruct line as [|c' line]; [discriminate|].
  cbn [String.prefix] in Hp. destruct (ascii_dec c c') as [<-|]; [|discriminate].
  cbn [break_free].
  destruct Hl as [Ht|Hb].
  - cbn [terminated] in Ht. destruct (SetupEnv.is_lf c) eqn:Hlf.
    + destruct line; [|discriminate]. now destruct key.
    + apply andb_prop in Ht as [Hcr Ht]. rewrite Hcr.
      cbn [negb andb]. apply (IH line); [now left|exact Hp].
  - cbn [break_free] in Hb. apply andb_prop in Hb as [Hc Hb]. rewrite Hc.
    apply (IH line); [now right|exact Hp].
Qed.

Lemma written_line_terminated (key value line : string) :
  terminated line = true \/ break_free line = true ->
  String.prefix (key +:+ "=") line = true ->
  break_free value = true ->
  terminated (key +:+ "=" +:+ value +:+ nl) = true.
Proof.
  intros Hl Hp Hv.
  replace (key +:+ "=" +:+ value +:+ nl) with ((key +:+ "=" +:+ value) +:+ nl)
    by now rewrite !string_app_assoc.
  apply terminated_app_nl, break_free_app;
    [exact (prefix_key_break_free key line Hl Hp)|].
  now apply (break_free_app "=" value).
Qed.

Lemma line_of_as_read (line : string) (rest : list string) :
  as_read (line :: rest) = true ->
  terminated line = true \/ break_free line = true.
Proof.
  cbn [as_read]. intros [Hl _]%andb_prop.
  apply orb_prop in Hl as [Ht|Ho]; [now left|].
  apply andb_prop in Ho as [[_ Hb]%andb_prop _]. now right.
Qed.

Lemma replace_first_as_read (key value : string) (lines : list string) :
  break_free value = true ->
  as_read lines = true ->
  as_read (fst (SetupEnv.replace_first key value lines)) = true.
Proof.
  intros Hv. induction lines as [|line rest IH]; [reflexivity|]. intros Hl.
  pose proof (line_of_as_read line rest Hl) as Hline.
  pose proof (as_read_tail line rest Hl) as Hrest.
  cbn [SetupEnv.replace_first].
  destruct (String.prefix (key +:+ "=") line) eqn:Hp.
  - cbn [fst as_read].
    now rewrite (written_line_terminated key value line Hline Hp Hv), Hrest.
  - specialize (IH Hrest).
    destruct rest as [|line' rest'].
    + exact Hl.
    + destruct (SetupEnv.replace_first key value (line' :: rest')) as [new u] eqn:E.
      cbn [fst] in IH |- *.
      assert (Hn : exists x xs, new = x :: xs).
      { pose proof (replace_first_length key value (line' :: rest')) as HL.
        rewrite E in HL. cbn [fst length] in HL.
        destruct new as [|x xs]; [discriminate|]. now exists x, xs. }
      destruct Hn as (x & xs & ->).
      cbn [as_read] in Hl |- *. apply andb_prop in Hl as [Hl _].
      rewrite andb_false_l, orb_false_r in Hl.
      rewrite andb_false_l, orb_false_r, Hl. exact IH.
Qed.

(** X18.  Updates of one key compose as the last one alone: for a first
    value without a line break, writing it and then another value leaves the
    file that the second update alone would leave, so repeating an update
    changes nothing.  Such an update never changes the number of lines of
    the file, and a missing file stays missing. *)
Theorem update_env_value_last_write_wins
        (key v1 v2 : string) (file : option string) :
  break_free v1 = true ->
  fst (SetupEnv.update_env_file key v2
         (fst (SetupEnv.update_env_file key v1 file)))
  = fst (SetupEnv.update_env_file key v2 file)
  /\ option_map (fun text => length (SetupEnv.readlines text))
       (fst (SetupEnv.update_env_file key v1 file))
     = option_map (fun text => length (SetupEnv.readlines text)) file.
Proof.
  intros Hv. destruct file as [text|]; [|split; reflexivity].
  unfold SetupEnv.update_env_file, SetupEnv.update_env_value.
  cbn [option_map].
  pose proof (replace_first_twice key v1 v2 (SetupEnv.readlines text)) as H.
  pose proof (replace_first_length key v1 (SetupEnv.readlines text)) as HL.
  pose proof (replace_first_as_read key v1 (SetupEnv.readlines text) Hv
                (readlines_as_read text)) as HR.
  destruct (SetupEnv.replace_first key v1 (SetupEnv.readlines text)) as [l1 u1].
  cbn [fst option_map] in H, HL, HR |- *.
  rewrite (readlines_writelines l1 HR).
  destruct (SetupEnv.replace_first key v2 l1) as [l12 u12].
  destruct (SetupEnv.replace_first key v2 (SetupEnv.readlines text)) as [l2 u2].
  cbn [fst option_map] in H |- *. now rewrite H, HL.
Qed.

Lemma update_env_value_last_write_wins_witness :
  fst (SetupEnv.update_env_file "VCENTER_HOST" "https://b"
         (fst (SetupEnv.update_env_file "VCENTER_HOST" "https://a"
                 (Some sample_env_text))))
  = fst (SetupEnv.update_env_file "VCENTER_HOST" "https://b" (Some sample_env_text)).
Proof.
  exact (proj1 (update_env_value_last_write_wins "VCENTER_HOST" "https://a"
                  "https://b" (Some sample_env_text) eq_refl)).
Defined.











